(** * QuickShop analytics dashboard: the filter / aggregate / export pipeline

    A shallow embedding of [src/app.py].  The Streamlit script is one
    top-to-bottom render; the parts embedded here are

    - [create_sample_data] (lines 20-30) and its [st.cache_data] memo,
    - [process_uploaded_data] and the upload section (lines 33-41, 78-103),
    - the boolean-mask filter that builds [filtered_df] (lines 149-153),
    - the KPI block (lines 155-195),
    - the detailed table and the three CSV exports (lines 268-328).

    Conventions.  A pandas [Timestamp] is its count of nanoseconds since
    1970-01-01, a [datetime.date] its count of days since then.  An [int64]
    column cell is a [Z]; sums of such columns wrap around as numpy's do.
    A [float64] is modelled by [float64] below: finite values are exact
    rationals (binary rounding is outside the model), and the two
    infinities and NaN are kept, because pandas produces them instead of
    raising on a division by zero. *)

From Stdlib Require Import ZArith QArith Qround List String Bool Lia Lqa.
From Stdlib Require Import Permutation Sorted.
Import ListNotations.

Local Open Scope string_scope.
Local Open Scope Z_scope.

(** ** Machine integers *)

Module Int64.

Definition modulus : Z := 2 ^ 64.
Definition half_modulus : Z := 2 ^ 63.

(** Two's complement reduction into [-2^63, 2^63). *)
Definition wrap (z : Z) : Z := (z + half_modulus) mod modulus - half_modulus.

Definition add (a b : Z) : Z := wrap (a + b).

Definition in_range (z : Z) : Prop := - half_modulus <= z < half_modulus.

End Int64.

(** ** Floating point values, rounding abstracted *)

Inductive float64 : Type :=
| Finite (q : Q)
| Inf (negative : bool)
| NaN.

Module Float.

Definition Qneg_bool (q : Q) : bool := negb (Qle_bool 0 q).

(** numpy's [true_divide]: no exception, the IEEE special values instead. *)
Definition truediv (a b : Q) : float64 :=
  if Qeq_bool b 0 then
    if Qeq_bool a 0 then NaN else Inf (Qneg_bool a)
  else Finite (a / b).

Definition mul (x y : float64) : float64 :=
  match x, y with
  | NaN, _ | _, NaN => NaN
  | Finite a, Finite b => Finite (a * b)
  | Inf s, Finite b | Finite b, Inf s =>
      if Qeq_bool b 0 then NaN else Inf (xorb s (Qneg_bool b))
  | Inf s, Inf t => Inf (xorb s t)
  end.

(** Round to the nearest integer, ties to the even one ([numpy.rint]). *)
Definition rint (q : Q) : Z :=
  let f := Qfloor q in
  let r := (q - inject_Z f)%Q in
  match (r ?= 1 # 2)%Q with
  | Lt => f
  | Gt => f + 1
  | Eq => if Z.even f then f else f + 1
  end.

(** [Series.round(decimals)]: scale, [rint], scale back, on the exact
    rational.  The double the code rounds carries its own representation
    error, so a value at or next to a tie can round the other way there;
    nothing below depends on which way a finite value is rounded. *)
Definition round (decimals : nat) (x : float64) : float64 :=
  match x with
  | Finite q =>
      let scale := inject_Z (10 ^ Z.of_nat decimals) in
      Finite (inject_Z (rint (q * scale)) / scale)
  | other => other
  end.

Definition is_finite (x : float64) : bool :=
  match x with Finite _ => true | _ => false end.

End Float.

(** ** Calendar *)

Definition ns_per_day : Z := 86400 * 1000000000.

(** Days since 1970-01-01 of a proleptic Gregorian date; this is what the
    literal ['2024-01-01'] denotes. *)
Definition days_from_civil (y m d : Z) : Z :=
  let y' := if m <=? 2 then y - 1 else y in
  let era := y' / 400 in
  let yoe := y' - era * 400 in
  let mp := if 2 <? m then m - 3 else m + 9 in
  let doy := (153 * mp + 2) / 5 + d - 1 in
  let doe := yoe * 365 + yoe / 4 - yoe / 100 + doy in
  era * 146097 + doe - 719468.

(** [Timestamp('Y-M-D')]: midnight of that day. *)
Definition Timestamp (y m d : Z) : Z := days_from_civil y m d * ns_per_day.

(** [Series.dt.date]: the calendar day, time of day dropped. *)
Definition dt_date (ts : Z) : Z := ts / ns_per_day.

(** ** Frames *)

(** One row of the five required columns. *)
Record Row : Type := mkRow {
  Date : Z;
  Visitors : Z;
  Orders : Z;
  Revenue : Q;
  Segment : string
}.

(** A frame keeps, with every row, its index label. *)
Definition DataFrame : Type := list (nat * Row).

Definition rows_of (df : DataFrame) : list Row := map snd df.
Definition index_of (df : DataFrame) : list nat := map fst df.

Module Pandas.

(** [range(n)] *)
Definition range (n : nat) : list Z := map Z.of_nat (seq 0 n).

(** [pd.date_range(start, periods=n, freq='D')] *)
Definition date_range (start : Z) (periods : nat) : list Z :=
  map (fun i => start + i * ns_per_day) (range periods).

Fixpoint zip_rows (d v o : list Z) (r : list Q) (s : list string) : list Row :=
  match d, v, o, r, s with
  | d0 :: d', v0 :: v', o0 :: o', r0 :: r', s0 :: s' =>
      mkRow d0 v0 o0 r0 s0 :: zip_rows d' v' o' r' s'
  | _, _, _, _, _ => []
  end.

(** A fresh frame over rows gets the labels 0, 1, 2, ... ([RangeIndex]). *)
Definition of_rows (rows : list Row) : DataFrame :=
  combine (seq 0 (List.length rows)) rows.

(** [pd.DataFrame({'Date': d, 'Visitors': v, ...})] *)
Definition of_columns (d v o : list Z) (r : list Q) (s : list string) : DataFrame :=
  of_rows (zip_rows d v o r s).

(** Element-wise comparisons of a column against a scalar. *)
Definition ge (col : list Z) (x : Z) : list bool := map (fun c => x <=? c) col.
Definition le (col : list Z) (x : Z) : list bool := map (fun c => c <=? x) col.

(** [Series.isin(values)] *)
Definition isin (col : list string) (values : list string) : list bool :=
  map (fun c => existsb (String.eqb c) values) col.

(** [mask1 & mask2] *)
Definition mask_and (m1 m2 : list bool) : list bool :=
  map (fun p => andb (fst p) (snd p)) (combine m1 m2).

(** [df[mask]]: the rows whose mask entry is true, labels kept. *)
Definition getitem_mask (df : DataFrame) (mask : list bool) : DataFrame :=
  map fst (filter snd (combine df mask)).

(** [Series.sum()] of an int64 column, accumulating with wrap-around. *)
Definition sum_int64 (col : list Z) : Z := fold_left Int64.add col 0.

(** [Series.sum()] of a float64 column of finite values, added exactly:
    neither the overflow of a double sum to an infinity nor the wrap-around
    of an integer-typed [Revenue] column is in the model. *)
Definition sum_float (col : list Q) : Q := fold_left Qplus col 0%Q.

(** [Series.unique()]: first occurrences, in order of appearance. *)
Fixpoint unique (col : list string) : list string :=
  match col with
  | [] => []
  | c :: col' => c :: filter (fun x => negb (String.eqb x c)) (unique col')
  end.

Fixpoint insert_sorted (x : string) (l : list string) : list string :=
  match l with
  | [] => [x]
  | y :: l' => if String.leb x y then x :: l else y :: insert_sorted x l'
  end.

(** [sorted(list_of_strings)] *)
Definition sorted (l : list string) : list string :=
  fold_right insert_sorted [] l.

End Pandas.

(** ** Tables of cells: what [pd.read_csv] returns and [to_csv] writes *)

Inductive cell : Type :=
| CStr (s : string)
| CInt (z : Z)
| CFloat (f : float64)
| CTime (ns : Z).

Record Table : Type := mkTable {
  header : list string;
  body : list (list cell)
}.

(** A pandas call either returns or raises [Exception(msg)]. *)
Inductive result (A : Type) : Type :=
| Ok (a : A)
| Raised (msg : string).
Arguments Ok {A} a.
Arguments Raised {A} msg.

Module Csv.

(** [DataFrame.to_csv(index=...)], cell by cell: the header line, then
    one line per row in frame order; the label column only if [index]. *)
Definition to_csv (index : bool) (columns : list string)
           (rows : list (nat * list cell)) : Table :=
  {| header := if index then "" :: columns else columns;
     body := map (fun r => if index then CInt (Z.of_nat (fst r)) :: snd r
                           else snd r) rows |}.

Fixpoint column_index (name : string) (columns : list string) : option nat :=
  match columns with
  | [] => None
  | c :: columns' =>
      if String.eqb c name then Some O
      else option_map S (column_index name columns')
  end.

Fixpoint set_nth (j : nat) (c : cell) (row : list cell) : list cell :=
  match row, j with
  | [], _ => []
  | _ :: row', O => c :: row'
  | x :: row', S j' => x :: set_nth j' c row'
  end.

(** [df[name]] for the column at position [j]; a line too short to have
    the cell reads as NaN, as [pd.read_csv] pads it. *)
Definition get_column (j : nat) (t : Table) : list cell :=
  map (fun line => nth j line (CFloat NaN)) (body t).

(** [df[name] = values], for a column that exists and values of the
    frame's length. *)
Definition set_column (j : nat) (values : list cell) (t : Table) : Table :=
  {| header := header t;
     body := map (fun p => set_nth j (snd p) (fst p)) (combine (body t) values) |}.

End Csv.

(** ** The application *)

Definition columns : list string :=
  ["Date"; "Visitors"; "Orders"; "Revenue"; "Segment"].

Definition cells_of_row (r : Row) : list cell :=
  [CTime (Date r); CInt (Visitors r); CInt (Orders r);
   CFloat (Finite (Revenue r)); CStr (Segment r)].

(** *** Sample data (lines 20-30) *)

Definition sample_Date : list Z := Pandas.date_range (Timestamp 2024 1 1) 30.
Definition sample_Visitors : list Z :=
  map (fun i => 1500 + i * 50 + (i mod 7) * 200) (Pandas.range 30).
Definition sample_Orders : list Z :=
  map (fun i => 150 + i * 5 + (i mod 7) * 20) (Pandas.range 30).
Definition sample_Revenue : list Z :=
  map (fun i => 15000 + i * 500 + (i mod 7) * 2000) (Pandas.range 30).
Definition sample_Segment : list string :=
  map (fun i => if i mod 2 =? 0 then "Mobile" else "Desktop") (Pandas.range 30).

(** The body of [create_sample_data]. *)
Definition create_sample_data : DataFrame :=
  Pandas.of_columns sample_Date sample_Visitors sample_Orders
                    (map inject_Z sample_Revenue) sample_Segment.

(** [@st.cache_data]: the memo of a function of no arguments holds at most
    one value; a call returns the stored value if there is one, and
    otherwise runs the body and stores what it returned. *)
Definition cache : Type := option DataFrame.

Definition cached_create_sample_data (c : cache) : DataFrame * cache :=
  match c with
  | Some df => (df, c)
  | None => (create_sample_data, Some create_sample_data)
  end.

(** The values returned by [n] successive calls, starting from memo [c]. *)
Fixpoint calls (n : nat) (c : cache) : list DataFrame :=
  match n with
  | O => []
  | S n' => let (df, c') := cached_create_sample_data c in df :: calls n' c'
  end.

(** *** Upload (lines 33-41 and 78-103) *)

(** An uploaded file as the script sees it: its name, and what the two
    pandas calls of [process_uploaded_data] do on it, [pd.read_csv] on the
    file and the date parser of [pd.to_datetime] on a cell of it. *)
Record UploadedFile : Type := mkUpload {
  name : string;
  read_csv : result Table;
  parse_date : cell -> result Z
}.

(** [pd.to_datetime(column)]: every cell parsed, the first failure raised. *)
Fixpoint to_datetime (parse : cell -> result Z) (column : list cell)
  : result (list cell) :=
  match column with
  | [] => Ok []
  | c :: column' =>
      match parse c with
      | Raised e => Raised e
      | Ok ns =>
          match to_datetime parse column' with
          | Raised e => Raised e
          | Ok rest => Ok (CTime ns :: rest)
          end
      end
  end.

Definition process_uploaded_data (uploaded_file : UploadedFile)
  : option Table * option string :=
  match read_csv uploaded_file with
  | Raised e => (None, Some e)
  | Ok df =>
      match Csv.column_index "Date" (header df) with
      | None => (None, Some "'Date'")
      | Some j =>
          match to_datetime (parse_date uploaded_file) (Csv.get_column j df) with
          | Raised e => (None, Some e)
          | Ok ts => (Some (Csv.set_column j ts df), None)
          end
      end
  end.

Record SessionState : Type := mkSession {
  data_loaded : bool;
  last_upload : option string;
  selected_segments : option (list string)
}.

(** What the upload section writes to the sidebar. *)
Inductive sidebar : Type :=
| ParseFailure (error : string)
| MissingColumns (missing_cols : list string)
| Loaded.

Definition required_cols : list string :=
  ["Date"; "Visitors"; "Orders"; "Revenue"; "Segment"].

(** [[col for col in required_cols if col not in df.columns]] *)
Definition missing_cols (df : Table) : list string :=
  filter (fun col => negb (existsb (String.eqb col) (header df))) required_cols.

(** Python truth value of [error]: [None] and the empty string are false. *)
Definition truthy (error : option string) : bool :=
  match error with
  | None => false
  | Some s => negb (String.eqb s "")
  end.

Definition differs (last : option string) (n : string) : bool :=
  match last with
  | None => true
  | Some l => negb (String.eqb l n)
  end.

(** Lines 78-103: the new session state, the value left in [df], and the
    sidebar message if any. *)
Definition upload_section (ss : SessionState) (uploaded_file : option UploadedFile)
  : SessionState * option Table * option sidebar :=
  match uploaded_file with
  | None => (ss, None, None)
  | Some f =>
      let '(df, error) := process_uploaded_data f in
      let ss1 :=
        if differs (last_upload ss) (name f)
        then mkSession (data_loaded ss) (Some (name f)) (selected_segments ss)
        else ss in
      if truthy error then
        (ss1, df, Some (ParseFailure match error with Some e => e | None => "" end))
      else
        match df with
        | Some t =>
            match missing_cols t with
            | [] => (mkSession true (last_upload ss1) (selected_segments ss1),
                     Some t, Some Loaded)
            | _ :: _ => (ss1, None, Some (MissingColumns (missing_cols t)))
            end
        | None => (ss1, None, None)
        end
  end.

(** *** Filter (lines 149-153) *)

Record FilterSpec : Type := mkFilter {
  start_date : Z;
  end_date : Z;
  segments : list string
}.

Definition filtered_df (df : DataFrame) (F : FilterSpec) : DataFrame :=
  let dates := map (fun r => dt_date (Date r)) (rows_of df) in
  Pandas.getitem_mask df
    (Pandas.mask_and
       (Pandas.mask_and (Pandas.ge dates (start_date F))
                        (Pandas.le dates (end_date F)))
       (Pandas.isin (map Segment (rows_of df)) (segments F))).

(** The inclusion predicate in the specification's words. *)
Definition included (F : FilterSpec) (r : Row) : Prop :=
  start_date F <= dt_date (Date r) <= end_date F /\ In (Segment r) (segments F).

Definition includedb (F : FilterSpec) (r : Row) : bool :=
  (start_date F <=? dt_date (Date r)) && (dt_date (Date r) <=? end_date F)
  && existsb (String.eqb (Segment r)) (segments F).

(** *** KPI block (lines 155-195) *)

(** [Series.mean()]: computed in floating point, NaN on an empty column. *)
Definition mean (col : list Q) : float64 :=
  Float.truediv (Pandas.sum_float col) (inject_Z (Z.of_nat (List.length col))).

Definition total (column : Row -> Z) (df : DataFrame) : Z :=
  Pandas.sum_int64 (map column (rows_of df)).

(** Line 189. *)
Definition conversion_rate_of (total_orders total_visitors : Z) : float64 :=
  if 0 <? total_visitors
  then Float.mul (Float.truediv (inject_Z total_orders) (inject_Z total_visitors))
                 (Finite 100)
  else Finite 0.

(** Line 190. *)
Definition avg_order_value_of (total_revenue : Q) (total_orders : Z) : float64 :=
  if 0 <? total_orders
  then Float.truediv total_revenue (inject_Z total_orders)
  else Finite 0.

Record KPISet : Type := mkKPI {
  total_visitors : Z;
  avg_daily_visitors : float64;
  total_orders : Z;
  avg_daily_orders : float64;
  total_revenue : Q;
  avg_daily_revenue : float64;
  conversion_rate : float64;
  avg_order_value : float64
}.

Definition compute_kpis (df : DataFrame) : KPISet :=
  let tv := total Visitors df in
  let to := total Orders df in
  let tr := Pandas.sum_float (map Revenue (rows_of df)) in
  {| total_visitors := tv;
     avg_daily_visitors := mean (map (fun r => inject_Z (Visitors r)) (rows_of df));
     total_orders := to;
     avg_daily_orders := mean (map (fun r => inject_Z (Orders r)) (rows_of df));
     total_revenue := tr;
     avg_daily_revenue := mean (map Revenue (rows_of df));
     conversion_rate := conversion_rate_of to tv;
     avg_order_value := avg_order_value_of tr to |}.

(** Line 155: the block runs only on a non-empty filtered frame; otherwise
    the script shows its warning and computes nothing. *)
Definition kpi_block (df : DataFrame) : option KPISet :=
  if (0 <? List.length df)%nat then Some (compute_kpis df) else None.

(** *** Detailed table (lines 268-273) and raw export (lines 281-288) *)

Fixpoint insert_desc (x : nat * Row) (l : DataFrame) : DataFrame :=
  match l with
  | [] => [x]
  | y :: l' =>
      if Date (snd y) <=? Date (snd x) then x :: l else y :: insert_desc x l'
  end.

(** [df.sort_values('Date', ascending=False)]; rows with equal dates keep
    their order. *)
Definition sort_values_Date_desc (df : DataFrame) : DataFrame :=
  fold_right insert_desc [] df.

Definition labelled_cells (df : DataFrame) : list (nat * list cell) :=
  map (fun p => (fst p, cells_of_row (snd p))) df.

(** [st.dataframe(filtered_df.sort_values(...), hide_index=True)] *)
Definition detailed_table (df : DataFrame) : Table :=
  Csv.to_csv false columns (labelled_cells (sort_values_Date_desc df)).

(** [csv_data = filtered_df.to_csv(index=False)], the raw export. *)
Definition csv_data (df : DataFrame) : Table :=
  Csv.to_csv false columns (labelled_cells df).

(** *** Segment breakdown (lines 315-321) *)

Record SegmentRow : Type := mkSegmentRow {
  s_Segment : string;
  s_Visitors : Z;
  s_Orders : Z;
  s_Revenue : Q;
  s_ConversionRate : float64
}.

(** The keys of [groupby('Segment')]: the distinct labels, sorted. *)
Definition group_keys (df : DataFrame) : list string :=
  Pandas.sorted (Pandas.unique (map Segment (rows_of df))).

(** The groups of [groupby('Segment')]: one per key, in key order, each
    holding its rows in frame order. *)
Definition groupby_Segment (df : DataFrame) : list (string * list Row) :=
  map (fun k => (k, filter (fun r => String.eqb (Segment r) k) (rows_of df)))
      (group_keys df).

Definition segment_row (g : string * list Row) : SegmentRow :=
  let v := Pandas.sum_int64 (map Visitors (snd g)) in
  let o := Pandas.sum_int64 (map Orders (snd g)) in
  {| s_Segment := fst g;
     s_Visitors := v;
     s_Orders := o;
     s_Revenue := Pandas.sum_float (map Revenue (snd g));
     s_ConversionRate :=
       Float.round 2 (Float.mul (Float.truediv (inject_Z o) (inject_Z v))
                                (Finite 100)) |}.

Definition segment_summary (df : DataFrame) : list SegmentRow :=
  map segment_row (groupby_Segment df).

Definition segment_columns : list string :=
  ["Segment"; "Visitors"; "Orders"; "Revenue"; "Conversion Rate"].

Definition cells_of_segment_row (s : SegmentRow) : list cell :=
  [CStr (s_Segment s); CInt (s_Visitors s); CInt (s_Orders s);
   CFloat (Finite (s_Revenue s)); CFloat (s_ConversionRate s)].

(** [segment_csv = segment_summary.to_csv(index=False)], the segment
    analysis export. *)
Definition segment_csv (df : DataFrame) : Table :=
  Csv.to_csv false segment_columns
    (combine (seq 0 (List.length (segment_summary df)))
             (map cells_of_segment_row (segment_summary df))).

(** *** Dashboard controls (lines 113-125) *)

(** [Series.min()] and [Series.max()]; an empty column has neither. *)
Definition series_min (col : list Z) : option Z :=
  match col with
  | [] => None
  | c :: col' => Some (fold_left Z.min col' c)
  end.

Definition series_max (col : list Z) : option Z :=
  match col with
  | [] => None
  | c :: col' => Some (fold_left Z.max col' c)
  end.

(** [df['Date'].min().date()] and [df['Date'].max().date()] *)
Definition min_date (df : DataFrame) : option Z :=
  option_map dt_date (series_min (map Date (rows_of df))).

Definition max_date (df : DataFrame) : option Z :=
  option_map dt_date (series_max (map Date (rows_of df))).

(** [max_date - timedelta(days=7)] *)
Definition default_start (max_date : Z) : Z := max_date - 7.

(** [sorted(df['Segment'].unique().tolist())] *)
Definition available_segments (df : DataFrame) : list string :=
  Pandas.sorted (Pandas.unique (map Segment (rows_of df))).

(** The filter of a first render: the two date inputs at their initial
    values, [max(default_start, min_date)] and [max_date], and the
    multiselect at its default, which line 136 sets to every available
    segment. *)
Definition default_filter (df : DataFrame) : option FilterSpec :=
  match min_date df, max_date df with
  | Some mn, Some mx =>
      Some (mkFilter (Z.max (default_start mx) mn) mx (available_segments df))
  | _, _ => None
  end.

(** Both date inputs moved to the ends of their allowed range. *)
Definition full_filter (df : DataFrame) : option FilterSpec :=
  match min_date df, max_date df with
  | Some mn, Some mx => Some (mkFilter mn mx (available_segments df))
  | _, _ => None
  end.

(** *** Segment charts (lines 240-254) *)

(** [filtered_df.groupby('Segment')['Visitors'].sum().reset_index()] *)
Definition segment_distribution (df : DataFrame) : list (string * Z) :=
  map (fun g => (fst g, Pandas.sum_int64 (map Visitors (snd g))))
      (groupby_Segment df).

Record PerformanceRow : Type := mkPerformanceRow {
  p_Segment : string;
  p_Revenue : Q;
  p_Orders : Z;
  p_Visitors : Z;
  p_ConversionRate : float64
}.

(** Lines 249-254: the grouped sums and the unrounded rate. *)
Definition performance_row (g : string * list Row) : PerformanceRow :=
  let o := Pandas.sum_int64 (map Orders (snd g)) in
  let v := Pandas.sum_int64 (map Visitors (snd g)) in
  {| p_Segment := fst g;
     p_Revenue := Pandas.sum_float (map Revenue (snd g));
     p_Orders := o;
     p_Visitors := v;
     p_ConversionRate :=
       Float.mul (Float.truediv (inject_Z o) (inject_Z v)) (Finite 100) |}.

Definition segment_performance (df : DataFrame) : list PerformanceRow :=
  map performance_row (groupby_Segment df).

(** *** Successive renders of the upload section *)

(** The session state after the upload section has run once for each
    entry of [files], the uploader's content at each render. *)
Fixpoint upload_renders (ss : SessionState) (files : list (option UploadedFile))
  : SessionState :=
  match files with
  | [] => ss
  | f :: files' => upload_renders (fst (fst (upload_section ss f))) files'
  end.

(** Alphabetical order on labels, as [sorted] uses it. *)
Definition label_le (a b : string) : Prop := String.leb a b = true.

(** Every line of a table has one cell per column. *)
Definition rectangular (t : Table) : Prop :=
  Forall (fun line => List.length line = List.length (header t)) (body t).

(** ** Specification-side notions *)

(** The plain integer sum of a column, without wrap-around. *)
Definition zsum (l : list Z) : Z := fold_right Z.add 0 l.


(** The [i]-th row of the sample data, written out from the formula. *)
Definition sample_row (i : Z) : Row :=
  {| Date := (days_from_civil 2024 1 1 + i) * ns_per_day;
     Visitors := 1500 + i * 50 + (i mod 7) * 200;
     Orders := 150 + i * 5 + (i mod 7) * 20;
     Revenue := inject_Z (15000 + i * 500 + (i mod 7) * 2000);
     Segment := if Z.even i then "Mobile" else "Desktop" |}.

(** Ten visitors per order, ten currency units per visitor. *)
Definition sample_invariant (r : Row) : Prop :=
  Visitors r = 10 * Orders r
  /\ Revenue r = inject_Z (10 * Visitors r)
  /\ Orders r <= Visitors r.

(** The leading [Date] cell of every line of a table. *)
Definition Date_cells (t : Table) : list Z :=
  flat_map (fun line => match line with CTime ns :: _ => [ns] | _ => [] end) (body t).

(** Sorted by date, latest first. *)
Definition descending (l : list Z) : Prop := StronglySorted Z.ge l.

Definition later_first (p q : nat * Row) : Prop := Date (snd p) >= Date (snd q).

(** ** Concrete inputs *)

(** The two-row scenario of the specification. *)
Definition scenario_rows : list Row :=
  [mkRow (Timestamp 2024 1 1) 100 10 1000 "Mobile";
   mkRow (Timestamp 2024 1 2) 200 30 3000 "Desktop"].

(** A single row with no visitor and no order. *)
Definition idle_rows : list Row := [mkRow (Timestamp 2024 1 1) 0 0 0 "Mobile"].

Definition first_week : FilterSpec :=
  mkFilter (days_from_civil 2024 1 1) (days_from_civil 2024 1 7) ["Desktop"; "Mobile"].

Definition first_two_days : FilterSpec :=
  mkFilter (days_from_civil 2024 1 1) (days_from_civil 2024 1 2) ["Desktop"; "Mobile"].

(** The session state of a first render (lines 11-14). *)
Definition fresh_session : SessionState := mkSession false None None.

(** An empty file: [pd.read_csv] raises [EmptyDataError]. *)
Definition empty_upload : UploadedFile :=
  mkUpload "empty.csv" (Raised "No columns to parse from file")
           (fun _ => Raised "Unknown datetime string format").

(** A file with header [Visitors,Orders,Revenue,Segment] and one line:
    [pd.read_csv] reads it, and it has no [Date] column. *)
Definition no_date_upload : UploadedFile :=
  mkUpload "no_date.csv"
    (Ok {| header := ["Visitors"; "Orders"; "Revenue"; "Segment"];
           body := [[CInt 100; CInt 10; CInt 1000; CStr "Mobile"]] |})
    (fun _ => Raised "Unknown datetime string format").

(** A file with header [Date,Visitors,Revenue,Segment] and one line. *)
Definition no_orders_upload : UploadedFile :=
  mkUpload "no_orders.csv"
    (Ok {| header := ["Date"; "Visitors"; "Revenue"; "Segment"];
           body := [[CStr "2024-01-01"; CInt 100; CInt 1000; CStr "Mobile"]] |})
    (fun c => match c with
              | CStr "2024-01-01" => Ok (Timestamp 2024 1 1)
              | _ => Raised "Unknown datetime string format"
              end).

(** * Properties *)

(** ** Integer sums *)

Lemma wrap_add_l (a b : Z) : Int64.wrap (Int64.wrap a + b) = Int64.wrap (a + b).
Proof.
  unfold Int64.wrap.
  replace ((a + Int64.half_modulus) mod Int64.modulus - Int64.half_modulus + b
           + Int64.half_modulus)
    with ((a + Int64.half_modulus) mod Int64.modulus + b) by ring.
  rewrite Zplus_mod_idemp_l.
  f_equal. f_equal. ring.
Qed.

Lemma wrap_add_r (a b : Z) : Int64.wrap (a + Int64.wrap b) = Int64.wrap (a + b).
Proof. rewrite Z.add_comm, wrap_add_l. f_equal. ring. Qed.

Lemma wrap_small (z : Z) : Int64.in_range z -> Int64.wrap z = z.
Proof.
  unfold Int64.in_range, Int64.wrap, Int64.half_modulus, Int64.modulus.
  intros H. rewrite Z.mod_small; lia.
Qed.

Lemma fold_add_wrap (l : list Z) (a : Z) :
  fold_left Int64.add l (Int64.wrap a) = Int64.wrap (a + zsum l).
Proof.
  revert a. induction l as [|x l IH]; intros a; cbn [fold_left zsum fold_right].
  - f_equal. ring.
  - change (Int64.add (Int64.wrap a) x) with (Int64.wrap (Int64.wrap a + x)).
    rewrite IH. fold (zsum l). rewrite <- Z.add_assoc, wrap_add_l. reflexivity.
Qed.

Lemma sum_int64_wrap (l : list Z) : Pandas.sum_int64 l = Int64.wrap (zsum l).
Proof.
  unfold Pandas.sum_int64.
  change 0 with (Int64.wrap 0) at 1.
  rewrite fold_add_wrap. reflexivity.
Qed.

Lemma wrap_zsum_map_wrap (l : list Z) :
  Int64.wrap (zsum (map Int64.wrap l)) = Int64.wrap (zsum l).
Proof.
  induction l as [|x l IH]; [reflexivity|].
  unfold zsum in *. cbn [map fold_right].
  rewrite wrap_add_l, <- wrap_add_r, IH, wrap_add_r. reflexivity.
Qed.

(** ** The filter is a plain [filter] *)

Lemma includedb_spec (F : FilterSpec) (r : Row) :
  includedb F r = true <-> included F r.
Proof.
  unfold includedb, included.
  rewrite !andb_true_iff, !Z.leb_le, existsb_exists.
  split.
  - intros [[H1 H2] [s [Hin Heq]]]. apply String.eqb_eq in Heq. subst s. auto.
  - intros [[H1 H2] Hin]. repeat split; auto.
    exists (Segment r). split; [assumption | apply String.eqb_refl].
Qed.

Lemma filtered_df_filter (df : DataFrame) (F : FilterSpec) :
  filtered_df df F = filter (fun p => includedb F (snd p)) df.
Proof.
  unfold filtered_df, Pandas.getitem_mask, Pandas.mask_and, Pandas.ge,
    Pandas.le, Pandas.isin, rows_of.
  induction df as [|p df IH]; simpl; [reflexivity|].
  unfold includedb at 1.
  destruct ((start_date F <=? dt_date (Date (snd p)))
            && (dt_date (Date (snd p)) <=? end_date F)
            && existsb (String.eqb (Segment (snd p))) (segments F)); simpl;
    rewrite IH; reflexivity.
Qed.

Lemma filter_none {A : Type} (f : A -> bool) (l : list A) :
  (forall x, f x = false) -> filter f l = [].
Proof.
  intros H. induction l as [|x l IH]; simpl; [reflexivity|].
  rewrite H. exact IH.
Qed.

(** ** Labels *)

Lemma in_of_rows_from (D : list Row) (s i : nat) (r : Row) :
  In (i, r) (combine (seq s (List.length D)) D) <->
  (s <= i)%nat /\ nth_error D (i - s) = Some r.
Proof.
  revert s. induction D as [|x D IH]; intros s; simpl.
  - split; [tauto|]. intros [_ H]. destruct (i - s)%nat; discriminate.
  - rewrite IH. split.
    + intros [H | [Hle Hn]].
      * inversion H; subst. rewrite Nat.sub_diag. simpl. split; [lia | reflexivity].
      * split; [lia|]. replace (i - s)%nat with (S (i - S s)) by lia. exact Hn.
    + intros [Hle Hn]. destruct (Nat.eq_dec s i) as [->|Hne].
      * rewrite Nat.sub_diag in Hn. simpl in Hn. left. congruence.
      * right. split; [lia|].
        replace (i - s)%nat with (S (i - S s)) in Hn by lia. exact Hn.
Qed.

Lemma in_of_rows (D : list Row) (i : nat) (r : Row) :
  In (i, r) (Pandas.of_rows D) <-> nth_error D i = Some r.
Proof.
  unfold Pandas.of_rows. rewrite in_of_rows_from, Nat.sub_0_r.
  split; [tauto | intros H; split; [lia | exact H]].
Qed.

Lemma index_of_rows (D : list Row) :
  index_of (Pandas.of_rows D) = seq 0 (List.length D).
Proof.
  unfold index_of, Pandas.of_rows. generalize 0%nat.
  induction D as [|x D IH]; intros s; simpl; [reflexivity|].
  rewrite IH. reflexivity.
Qed.

Lemma rows_of_rows (D : list Row) : rows_of (Pandas.of_rows D) = D.
Proof.
  unfold rows_of, Pandas.of_rows. generalize 0%nat.
  induction D as [|x D IH]; intros s; simpl; [reflexivity|].
  rewrite IH. reflexivity.
Qed.

Lemma seq_increasing (n s : nat) : StronglySorted lt (seq s n).
Proof.
  revert s. induction n as [|n IH]; intros s; simpl; constructor.
  - apply IH.
  - apply Forall_forall. intros x Hx. apply in_seq in Hx. lia.
Qed.

Lemma filter_increasing (f : nat * Row -> bool) (df : DataFrame) :
  StronglySorted lt (index_of df) -> StronglySorted lt (index_of (filter f df)).
Proof.
  unfold index_of.
  induction df as [|p df IH]; simpl; intros H; [constructor|].
  inversion H as [|? ? Hs Hall]; subst.
  destruct (f p); simpl; [constructor|]; auto.
  rewrite Forall_forall in *. intros x Hx. apply Hall.
  apply in_map_iff in Hx. destruct Hx as [q [Hq Hin]].
  apply filter_In in Hin. apply in_map_iff. exists q. tauto.
Qed.

Lemma rows_of_filter (f : Row -> bool) (df : DataFrame) :
  rows_of (filter (fun p => f (snd p)) df) = filter f (rows_of df).
Proof.
  unfold rows_of. induction df as [|p df IH]; simpl; [reflexivity|].
  destruct (f (snd p)); simpl; rewrite IH; reflexivity.
Qed.

Lemma increasing_NoDup (l : list nat) : StronglySorted lt l -> NoDup l.
Proof.
  induction 1 as [|x l Hs IH Hall]; constructor; auto.
  intros Hin. rewrite Forall_forall in Hall. specialize (Hall x Hin). lia.
Qed.

(** ** C1, C7: the filter *)

(** C1.  For every dataset [D] and filter [F], the filtered frame holds
    exactly the rows of [D] that satisfy the inclusion predicate (day of
    the row within [start_date, end_date], both ends included, and segment
    among the selected ones): row [r] sits there under label [i] exactly
    when it is the [i]-th row of [D] and satisfies the predicate.  The
    labels of the result increase strictly, so no position of [D] is taken
    twice and the rows come in the order they have in [D]. *)
Theorem filter_exact_and_stable (D : list Row) (F : FilterSpec) :
  let out := filtered_df (Pandas.of_rows D) F in
  (forall i r, In (i, r) out <-> nth_error D i = Some r /\ included F r)
  /\ StronglySorted lt (index_of out)
  /\ NoDup (index_of out)
  /\ rows_of out = filter (includedb F) D.
Proof.
  intros out. subst out. rewrite filtered_df_filter.
  assert (Hs : StronglySorted lt
                 (index_of (filter (fun p => includedb F (snd p)) (Pandas.of_rows D)))).
  { apply filter_increasing. rewrite index_of_rows. apply seq_increasing. }
  split; [|split; [|split]].
  - intros i r. rewrite filter_In, in_of_rows. simpl.
    rewrite includedb_spec. reflexivity.
  - exact Hs.
  - apply increasing_NoDup. exact Hs.
  - rewrite rows_of_filter, rows_of_rows. reflexivity.
Qed.

(** The day of a timestamp does not depend on its time of day. *)
Lemma dt_date_ignores_time (day t : Z) :
  0 <= t < ns_per_day -> dt_date (day * ns_per_day + t) = day.
Proof.
  intros H. unfold dt_date.
  rewrite Z.add_comm, Z.div_add by (unfold ns_per_day; lia).
  rewrite Z.div_small by exact H. reflexivity.
Qed.

(** C7.  With no segment selected, and likewise with a start date after the
    end date, the filtered frame is empty; [filtered_df] is a total
    function, so nothing is raised, and nothing in it inspects the filter
    before applying it. *)
Theorem filter_empty_selection_or_inverted_range (df : DataFrame) (F : FilterSpec) :
  (segments F = [] -> filtered_df df F = [])
  /\ (end_date F < start_date F -> filtered_df df F = []).
Proof.
  rewrite filtered_df_filter. split; intros H; apply filter_none; intros p.
  - unfold includedb. rewrite H. simpl. apply andb_false_r.
  - unfold includedb.
    destruct (Z.leb_spec (start_date F) (dt_date (Date (snd p)))); [|reflexivity].
    destruct (Z.leb_spec (dt_date (Date (snd p))) (end_date F)); [lia|reflexivity].
Qed.

(** The scenario of the specification: 2024-06-01 to 2024-01-01 on the
    sample data, all segments selected; and the sample data with no
    segment selected. *)
Lemma filter_empty_selection_or_inverted_range_witness :
  let inverted := mkFilter (days_from_civil 2024 6 1) (days_from_civil 2024 1 1)
                           ["Desktop"; "Mobile"] in
  let nothing := mkFilter (days_from_civil 2024 1 1) (days_from_civil 2024 1 30) [] in
  (end_date inverted < start_date inverted
   /\ filtered_df create_sample_data inverted = [])
  /\ (segments nothing = [] /\ filtered_df create_sample_data nothing = []).
Proof.
  intros inverted nothing. split; split.
  - vm_compute. reflexivity.
  - apply (proj2 (filter_empty_selection_or_inverted_range create_sample_data inverted)).
    vm_compute. reflexivity.
  - reflexivity.
  - apply (proj1 (filter_empty_selection_or_inverted_range create_sample_data nothing)).
    reflexivity.
Defined.

(** ** C2: the two ratios of the KPI block *)

Lemma Qeq_bool_inject_nonzero (z : Z) : z <> 0 -> Qeq_bool (inject_Z z) 0 = false.
Proof.
  intros H. destruct (Qeq_bool (inject_Z z) 0) eqn:E; [|reflexivity].
  apply Qeq_bool_iff in E. unfold Qeq in E. simpl in E. lia.
Qed.

Lemma truediv_nonzero (a : Q) (z : Z) :
  z <> 0 -> Float.truediv a (inject_Z z) = Finite (a / inject_Z z).
Proof. intros H. unfold Float.truediv. rewrite Qeq_bool_inject_nonzero; auto. Qed.



(** The figures of the scenario: 300 visitors, 40 orders, revenue 4000,
    conversion rate 40/3 (13.33%), average order value 100. *)
Example scenario_kpis :
  let k := compute_kpis (Pandas.of_rows scenario_rows) in
  total_visitors k = 300 /\ total_orders k = 40 /\ (total_revenue k == 4000)%Q
  /\ (exists q, conversion_rate k = Finite q /\ (q == 40 # 3)%Q)
  /\ (exists q, avg_order_value k = Finite q /\ (q == 100)%Q).
Proof.
  cbv zeta. do 3 (split; [reflexivity|]).
  split; eexists; split; reflexivity.
Qed.

(** ** C9: grouped sums against the total *)

Lemma unique_In (l : list string) (x : string) : In x (Pandas.unique l) <-> In x l.
Proof.
  induction l as [|c l IH]; simpl; [tauto|].
  rewrite filter_In, IH, negb_true_iff, String.eqb_neq.
  destruct (string_dec c x) as [->|Hne]; [tauto|].
  split; [tauto|]. intros [H|H]; [tauto|]. right. split; [exact H | congruence].
Qed.

Lemma unique_NoDup (l : list string) : NoDup (Pandas.unique l).
Proof.
  induction l as [|c l IH]; simpl; constructor.
  - rewrite filter_In, String.eqb_refl. simpl. intros [_ H]. discriminate.
  - apply NoDup_filter. exact IH.
Qed.

Lemma insert_sorted_perm (x : string) (l : list string) :
  Permutation (Pandas.insert_sorted x l) (x :: l).
Proof.
  induction l as [|y l IH]; simpl; [reflexivity|].
  destruct (String.leb x y); [reflexivity|].
  rewrite IH. apply perm_swap.
Qed.

Lemma sorted_perm (l : list string) : Permutation (Pandas.sorted l) l.
Proof.
  induction l as [|x l IH]; simpl; [reflexivity|].
  rewrite insert_sorted_perm, IH. reflexivity.
Qed.

Lemma group_keys_NoDup (df : DataFrame) : NoDup (group_keys df).
Proof.
  unfold group_keys.
  apply (Permutation_NoDup (Permutation_sym (sorted_perm _))), unique_NoDup.
Qed.

Lemma group_keys_In (df : DataFrame) (s : string) :
  In s (group_keys df) <-> In s (map Segment (rows_of df)).
Proof.
  unfold group_keys. split; intros H.
  - apply unique_In. apply (Permutation_in _ (sorted_perm _)). exact H.
  - apply (Permutation_in _ (Permutation_sym (sorted_perm _))).
    apply unique_In. exact H.
Qed.

Lemma zsum_indicator (s : string) (v : Z) (keys : list string) :
  NoDup keys ->
  zsum (map (fun k => if String.eqb s k then v else 0) keys) =
  if existsb (String.eqb s) keys then v else 0.
Proof.
  induction 1 as [|k keys Hnotin Hnd IH]; simpl; [reflexivity|].
  rewrite IH. destruct (String.eqb_spec s k) as [->|Hne]; simpl; [|reflexivity].
  destruct (existsb (String.eqb k) keys) eqn:E; [|lia].
  apply existsb_exists in E. destruct E as [y [Hy Heq]].
  apply String.eqb_eq in Heq. subst y. contradiction.
Qed.

Lemma zsum_map_add {A : Type} (f g : A -> Z) (l : list A) :
  zsum (map (fun x => f x + g x) l) = zsum (map f l) + zsum (map g l).
Proof. induction l as [|x l IH]; simpl; [reflexivity | rewrite IH; ring]. Qed.

(** Exact sums: the groups of a key list without repetition that covers
    every label split the column. *)
Lemma zsum_groups (f : Row -> Z) (keys : list string) (rows : list Row) :
  NoDup keys ->
  (forall r, In r rows -> In (Segment r) keys) ->
  zsum (map (fun k => zsum (map f (filter (fun r => String.eqb (Segment r) k) rows)))
            keys)
  = zsum (map f rows).
Proof.
  intros Hnd. induction rows as [|r rows IH]; intros Hcov.
  - simpl. clear Hnd Hcov.
    induction keys as [|k keys IHk]; simpl; [reflexivity | exact IHk].
  - simpl.
    rewrite (map_ext _
               (fun k => (if String.eqb (Segment r) k then f r else 0)
                         + zsum (map f (filter (fun r0 => String.eqb (Segment r0) k) rows)))).
    + rewrite zsum_map_add, zsum_indicator by exact Hnd.
      rewrite IH by (intros r0 H0; apply Hcov; right; exact H0).
      assert (E : existsb (String.eqb (Segment r)) keys = true).
      { apply existsb_exists. exists (Segment r).
        split; [apply Hcov; left; reflexivity | apply String.eqb_refl]. }
      rewrite E. reflexivity.
    + intros k. destruct (String.eqb (Segment r) k); reflexivity.
Qed.

Lemma groupby_column_sum (column : Row -> Z) (df : DataFrame) :
  Pandas.sum_int64
    (map (fun g => Pandas.sum_int64 (map column (snd g))) (groupby_Segment df))
  = total column df.
Proof.
  unfold total, groupby_Segment.
  rewrite map_map. cbn [snd].
  rewrite !sum_int64_wrap.
  rewrite (map_ext _
             (fun k => Int64.wrap
                         (zsum (map column
                                    (filter (fun r => String.eqb (Segment r) k)
                                            (rows_of df))))))
    by (intros k; apply sum_int64_wrap).
  rewrite <- (map_map (fun k => zsum (map column
                                   (filter (fun r => String.eqb (Segment r) k)
                                           (rows_of df))))
                      Int64.wrap).
  rewrite wrap_zsum_map_wrap, zsum_groups; [reflexivity | apply group_keys_NoDup |].
  intros r Hr. apply group_keys_In, in_map, Hr.
Qed.

(** C9.  The [Visitors] column of the segment summary sums (as pandas
    sums an int64 column) to the total visitors of the KPI block over the
    same filtered frame. *)
Theorem segment_visitors_sum_to_total (df : DataFrame) :
  Pandas.sum_int64 (map s_Visitors (segment_summary df))
  = total_visitors (compute_kpis df).
Proof.
  unfold segment_summary. rewrite map_map. cbn [s_Visitors segment_row].
  apply (groupby_column_sum Visitors).
Qed.


Lemma zsum_filter_bounds (f : Row -> Z) (p : Row -> bool) (rows : list Row) :
  Forall (fun r => 0 <= f r) rows ->
  0 <= zsum (map f (filter p rows)) <= zsum (map f rows).
Proof.
  induction 1 as [|r rows Hr _ IH]; simpl; [lia|].
  destruct (p r); simpl; fold (zsum (map f rows)) in *;
    try fold (zsum (map f (filter p rows))) in *; lia.
Qed.

(** X9.  With non-negative visitor counts whose plain total fits an int64, no
    sum wraps, and the plain sum of the summary's [Visitors] column is the
    plain total. *)
Lemma segment_visitors_sum_exact (df : DataFrame) :
  Forall (fun r => 0 <= Visitors r) (rows_of df) ->
  zsum (map Visitors (rows_of df)) < Int64.half_modulus ->
  zsum (map s_Visitors (segment_summary df)) = zsum (map Visitors (rows_of df))
  /\ total_visitors (compute_kpis df) = zsum (map Visitors (rows_of df)).
Proof.
  intros Hpos Hfit.
  assert (Hin : forall p, Int64.in_range
                            (zsum (map Visitors (filter p (rows_of df))))).
  { intros p. pose proof (zsum_filter_bounds Visitors p _ Hpos) as Hb.
    unfold Int64.in_range. unfold Int64.half_modulus in *. lia. }
  split.
  - unfold segment_summary, groupby_Segment. rewrite !map_map.
    cbn [s_Visitors segment_row snd].
    rewrite (map_ext _
               (fun k => zsum (map Visitors
                                   (filter (fun r => String.eqb (Segment r) k)
                                           (rows_of df))))).
    + apply zsum_groups; [apply group_keys_NoDup|].
      intros r Hr. apply group_keys_In, in_map, Hr.
    + intros k. rewrite sum_int64_wrap. apply wrap_small, Hin.
  - unfold compute_kpis, total. cbn [total_visitors].
    rewrite sum_int64_wrap. apply wrap_small.
    pose proof (zsum_filter_bounds Visitors (fun _ => true) _ Hpos) as Hb.
    unfold Int64.in_range. unfold Int64.half_modulus in *.
    assert (E : filter (fun _ : Row => true) (rows_of df) = rows_of df).
    { clear. induction (rows_of df) as [|r l IH]; simpl; [reflexivity|].
      rewrite IH. reflexivity. }
    rewrite E in Hb. lia.
Qed.

(** ** C4: the per-segment conversion rate *)

(** Where a segment has visitors, its exported rate is
    orders / visitors * 100 rounded to two decimals. *)
Lemma segment_rate_with_visitors (g : string * list Row) :
  s_Visitors (segment_row g) <> 0 ->
  s_ConversionRate (segment_row g) =
    Float.round 2 (Finite (inject_Z (s_Orders (segment_row g))
                           / inject_Z (s_Visitors (segment_row g)) * 100)).
Proof.
  intros H. unfold segment_row in *. cbn [s_Visitors s_Orders s_ConversionRate] in *.
  rewrite truediv_nonzero by exact H. reflexivity.
Qed.

(** Where a segment sums to zero visitors, the division of line 320 is
    carried out all the same: the rate is NaN or an infinity. *)
Lemma segment_rate_without_visitors (g : string * list Row) :
  s_Visitors (segment_row g) = 0 ->
  Float.is_finite (s_ConversionRate (segment_row g)) = false.
Proof.
  intros H. unfold segment_row in *. cbn [s_Visitors s_ConversionRate] in *.
  rewrite H. unfold Float.truediv. simpl (Qeq_bool (inject_Z 0) 0).
  cbv iota.
  destruct (Qeq_bool (inject_Z (Pandas.sum_int64 (map Orders (snd g)))) 0);
    [reflexivity|].
  simpl. destruct (Qeq_bool 100 0) eqn:E; [discriminate E | reflexivity].
Qed.

(** C4, evaluated.  A filtered frame whose only [Mobile] row has no
    visitor and no order: the KPI block's guarded rate is 0, the segment
    export's rate is NaN; with orders but no visitors it is an infinity. *)
Theorem segment_rate_not_zero_guarded :
  conversion_rate (compute_kpis (Pandas.of_rows idle_rows)) = Finite 0
  /\ segment_summary (Pandas.of_rows idle_rows)
     = [mkSegmentRow "Mobile" 0 0 0 NaN]
  /\ body (segment_csv (Pandas.of_rows idle_rows))
     = [[CStr "Mobile"; CInt 0; CInt 0; CFloat (Finite 0); CFloat NaN]]
  /\ map s_ConversionRate
         (segment_summary
            (Pandas.of_rows [mkRow (Timestamp 2024 1 1) 0 5 50 "Mobile"]))
     = [Inf false].
Proof. repeat split. Qed.

(** ** C8: the sample data *)

Lemma calls_filled (n : nat) (df : DataFrame) : calls n (Some df) = repeat df n.
Proof. induction n as [|n IH]; simpl; [reflexivity | rewrite IH; reflexivity]. Qed.

(** C8.  Any number of successive calls of the memoised
    [create_sample_data], from an empty memo, return the same frame.  That
    frame has 30 rows; row [i] carries label [i], the [i]-th day counted
    from 2024-01-01 at midnight, visitors 1500 + 50 i + 200 (i mod 7),
    orders 150 + 5 i + 20 (i mod 7), revenue 15000 + 500 i + 2000 (i mod 7),
    and segment [Mobile] for even [i], [Desktop] for odd [i]. *)
Theorem sample_data_deterministic_and_shaped :
  (forall n, calls n None = repeat create_sample_data n)
  /\ List.length create_sample_data = 30%nat
  /\ (forall i, (i < 30)%nat ->
        nth_error create_sample_data i = Some (i, sample_row (Z.of_nat i))
        /\ dt_date (Date (sample_row (Z.of_nat i)))
           = days_from_civil 2024 1 1 + Z.of_nat i).
Proof.
  split; [|split].
  - intros [|n]; simpl; [reflexivity|]. rewrite calls_filled. reflexivity.
  - reflexivity.
  - intros i Hi.
    do 30 (destruct i as [|i]; [split; vm_compute; reflexivity|]). lia.
Qed.

Lemma sample_data_deterministic_and_shaped_witness :
  (9 < 30)%nat
  /\ nth_error create_sample_data 9
     = Some (9%nat, mkRow 1704844800000000000 2350 235 23500 "Desktop")
  /\ calls 2 None = [create_sample_data; create_sample_data].
Proof.
  destruct sample_data_deterministic_and_shaped as [Hcalls [_ Hrow]].
  assert (H : (9 < 30)%nat) by lia.
  exact (conj H (conj (proj1 (Hrow 9%nat H)) (Hcalls 2%nat))).
Defined.

(** ** C10: ratios built into the sample data *)

Lemma sample_rows_bounded :
  Forall (fun r => sample_invariant r /\ 150 <= Orders r <= 415)
         (rows_of create_sample_data).
Proof.
  apply Forall_forall. intros r Hr. vm_compute in Hr.
  repeat (destruct Hr as [Hr | Hr];
          [subst r; unfold sample_invariant; cbn [Visitors Orders Revenue];
           repeat split; try reflexivity; lia|]).
  contradiction.
Qed.

Lemma zsum_orders_bounds (rows : list Row) :
  Forall (fun r => sample_invariant r /\ 150 <= Orders r <= 415) rows ->
  150 * Z.of_nat (List.length rows) <= zsum (map Orders rows)
                                    <= 415 * Z.of_nat (List.length rows)
  /\ zsum (map Visitors rows) = 10 * zsum (map Orders rows).
Proof.
  induction 1 as [|r rows [[Hv _] Hb] _ IH].
  - simpl. lia.
  - cbn [map zsum fold_right List.length]. fold (zsum (map Orders rows)).
    fold (zsum (map Visitors rows)). rewrite Nat2Z.inj_succ. lia.
Qed.

Lemma filter_length_le {A : Type} (f : A -> bool) (l : list A) :
  (List.length (filter f l) <= List.length l)%nat.
Proof.
  induction l as [|x l IH]; simpl; [lia|]. destruct (f x); simpl; lia.
Qed.

Lemma Forall_filter_keep {A : Type} (P : A -> Prop) (f : A -> bool) (l : list A) :
  Forall P l -> Forall P (filter f l).
Proof.
  intros H. apply Forall_forall. intros x Hx. apply filter_In in Hx.
  rewrite Forall_forall in H. apply H. tauto.
Qed.

Lemma ten_percent (o : Z) :
  0 < o -> (inject_Z o / inject_Z (10 * o) * 100 == 10)%Q.
Proof.
  intros H. rewrite inject_Z_mult.
  assert (Hne : ~ (inject_Z o == 0)%Q).
  { unfold Qeq. simpl. lia. }
  field. exact Hne.
Qed.

(** The totals of a filtered part of the sample data. *)
Lemma sample_subset_totals (F : FilterSpec) :
  let v := filtered_df create_sample_data F in
  total Visitors v = 10 * total Orders v
  /\ 150 * Z.of_nat (List.length v) <= total Orders v.
Proof.
  intros v. subst v. rewrite filtered_df_filter.
  unfold total. rewrite !sum_int64_wrap, rows_of_filter.
  pose proof (Forall_filter_keep _ (includedb F) _ sample_rows_bounded) as Hall.
  pose proof (filter_length_le (includedb F) (rows_of create_sample_data)) as Hlen.
  change (List.length (rows_of create_sample_data)) with 30%nat in Hlen.
  apply zsum_orders_bounds in Hall. destruct Hall as [Hb Hv].
  assert (Hl : List.length (filter (fun p => includedb F (snd p)) create_sample_data)
               = List.length (filter (includedb F) (rows_of create_sample_data))).
  { rewrite <- rows_of_filter. unfold rows_of. rewrite length_map. reflexivity. }
  rewrite Hl.
  rewrite !wrap_small; [lia | |];
    unfold Int64.in_range, Int64.half_modulus; lia.
Qed.

(** C10, as the code has it.  Every row of the sample data has ten times
    as many visitors as orders and a revenue of ten times its visitors, so
    orders never exceed visitors; and whenever the filtered part of the
    sample data is not empty, the KPI block runs and its conversion rate is
    exactly 10. *)
Theorem sample_ratios_and_ten_percent :
  Forall sample_invariant (rows_of create_sample_data)
  /\ (forall F, filtered_df create_sample_data F <> [] ->
        exists k q,
          kpi_block (filtered_df create_sample_data F) = Some k
          /\ conversion_rate k = Finite q /\ (q == 10)%Q).
Proof.
  split.
  - eapply Forall_impl; [|exact sample_rows_bounded]. intros r [H _]. exact H.
  - intros F Hne.
    destruct (sample_subset_totals F) as [Hv Ho]. cbv zeta in Hv, Ho.
    set (v := filtered_df create_sample_data F) in *.
    assert (Hpos : 0 < total Orders v).
    { destruct v as [|p v']; [contradiction|]. cbn [List.length] in Ho. lia. }
    exists (compute_kpis v).
    exists (inject_Z (total Orders v) / inject_Z (total Visitors v) * 100)%Q.
    split; [|split].
    + unfold kpi_block. destruct v; [contradiction | reflexivity].
    + unfold compute_kpis. cbn [conversion_rate]. unfold conversion_rate_of.
      assert (Hb : (0 <? total Visitors v) = true) by (apply Z.ltb_lt; lia).
      rewrite Hb, truediv_nonzero by lia. reflexivity.
    + rewrite Hv. apply ten_percent. exact Hpos.
Qed.

Lemma sample_ratios_and_ten_percent_witness :
  filtered_df create_sample_data first_week <> []
  /\ exists k q,
       kpi_block (filtered_df create_sample_data first_week) = Some k
       /\ conversion_rate k = Finite q /\ (q == 10)%Q.
Proof.
  assert (H : filtered_df create_sample_data first_week <> [])
    by (vm_compute; discriminate).
  exact (conj H (proj2 sample_ratios_and_ten_percent first_week H)).
Defined.

(** C10 as worded fails on the empty filtered part: with no segment
    selected nothing is left, the KPI block does not run, and line 189
    evaluated on the empty frame gives 0, not 10. *)
Lemma empty_subset_has_no_ten_percent :
  let nothing := mkFilter (days_from_civil 2024 1 1) (days_from_civil 2024 1 30) [] in
  filtered_df create_sample_data nothing = []
  /\ kpi_block (filtered_df create_sample_data nothing) = None
  /\ conversion_rate (compute_kpis (filtered_df create_sample_data nothing)) = Finite 0
  /\ ~ (0 == 10)%Q.
Proof.
  cbv zeta. split; [reflexivity|]. split; [reflexivity|].
  split; [reflexivity|]. intros H. discriminate H.
Qed.

(** ** C3: the raw export *)

Lemma insert_desc_perm (x : nat * Row) (l : DataFrame) :
  Permutation (insert_desc x l) (x :: l).
Proof.
  induction l as [|y l IH]; simpl; [reflexivity|].
  destruct (Date (snd y) <=? Date (snd x)); [reflexivity|].
  rewrite IH. apply perm_swap.
Qed.

Lemma sort_values_perm (df : DataFrame) : Permutation (sort_values_Date_desc df) df.
Proof.
  induction df as [|x df IH]; simpl; [reflexivity|].
  rewrite insert_desc_perm, IH. reflexivity.
Qed.

Lemma insert_desc_sorted (x : nat * Row) (l : DataFrame) :
  StronglySorted later_first l -> StronglySorted later_first (insert_desc x l).
Proof.
  induction 1 as [|y l Hs IH Hall]; simpl.
  - constructor; constructor.
  - destruct (Z.leb_spec (Date (snd y)) (Date (snd x))) as [Hlt|Hge].
    + constructor; [constructor; assumption|].
      constructor; [unfold later_first; lia|].
      eapply Forall_impl; [|exact Hall]. unfold later_first. intros z Hz. lia.
    + constructor; [exact IH|].
      apply (Permutation_Forall (Permutation_sym (insert_desc_perm x l))).
      constructor; [unfold later_first; lia | exact Hall].
Qed.

Lemma sort_values_sorted (df : DataFrame) :
  StronglySorted later_first (sort_values_Date_desc df).
Proof.
  induction df as [|x df IH]; simpl; [constructor|].
  apply insert_desc_sorted, IH.
Qed.

Lemma insert_desc_on_date (d : Z) (x : nat * Row) (l : DataFrame) :
  filter (fun p => Date (snd p) =? d) (insert_desc x l)
  = filter (fun p => Date (snd p) =? d) (x :: l).
Proof.
  induction l as [|y l IH]; [reflexivity|].
  cbn [insert_desc]. destruct (Z.leb_spec (Date (snd y)) (Date (snd x))) as [H|H];
    [reflexivity|].
  cbn [filter] in *. rewrite IH.
  destruct (Z.eqb_spec (Date (snd y)) d), (Z.eqb_spec (Date (snd x)) d);
    try reflexivity. lia.
Qed.

(** Rows of the same date keep their frame order in the sorted table. *)
Lemma sort_values_keeps_tie_order (d : Z) (df : DataFrame) :
  filter (fun p => Date (snd p) =? d) (sort_values_Date_desc df)
  = filter (fun p => Date (snd p) =? d) df.
Proof.
  induction df as [|x df IH]; [reflexivity|].
  cbn [sort_values_Date_desc fold_right]. fold (sort_values_Date_desc df).
  rewrite insert_desc_on_date. cbn [filter]. rewrite IH. reflexivity.
Qed.

Lemma Date_cells_to_csv (df : DataFrame) :
  Date_cells (Csv.to_csv false columns (labelled_cells df))
  = map (fun p => Date (snd p)) df.
Proof.
  unfold Date_cells, Csv.to_csv, labelled_cells. cbn [body].
  induction df as [|p df IH]; simpl; [reflexivity|].
  f_equal. exact IH.
Qed.

Lemma descending_map (df : DataFrame) :
  StronglySorted later_first df -> descending (map (fun p => Date (snd p)) df).
Proof.
  unfold descending.
  induction 1 as [|y l Hs IH Hall]; simpl; constructor; [exact IH|].
  apply Forall_map. exact Hall.
Qed.

(** A line of the export determines the row it was written from. *)
Lemma cells_of_row_injective (r r' : Row) :
  cells_of_row r = cells_of_row r' -> r = r'.
Proof.
  destruct r, r'. unfold cells_of_row. simpl. intros H.
  inversion H. reflexivity.
Qed.

(** C3, as the code has it.  The raw export has the five column names as
    its header, then one line per row of the filtered frame carrying all
    five fields of that row and no label, and the lines come in the order
    of the filtered frame: the export is not re-sorted.  The sort by date,
    latest first, is applied to the on-screen detailed table only, which
    shows the same rows. *)
Theorem export_raw_keeps_frame_order (df : DataFrame) :
  header (csv_data df) = ["Date"; "Visitors"; "Orders"; "Revenue"; "Segment"]
  /\ body (csv_data df) = map cells_of_row (rows_of df)
  /\ Forall (fun line => List.length line = 5%nat) (body (csv_data df))
  /\ Date_cells (csv_data df) = map Date (rows_of df)
  /\ Permutation (sort_values_Date_desc df) df
  /\ body (detailed_table df) = map cells_of_row (rows_of (sort_values_Date_desc df))
  /\ descending (Date_cells (detailed_table df)).
Proof.
  assert (Hbody : forall d : DataFrame,
             body (Csv.to_csv false columns (labelled_cells d))
             = map cells_of_row (rows_of d)).
  { intros d. unfold Csv.to_csv, labelled_cells, rows_of. cbn [body].
    rewrite !map_map. reflexivity. }
  split; [reflexivity|]. split; [apply Hbody|].
  split; [|split; [|split; [|split]]].
  - unfold csv_data. rewrite Hbody. apply Forall_map, Forall_forall.
    intros r _. reflexivity.
  - unfold csv_data. rewrite Date_cells_to_csv. unfold rows_of.
    rewrite map_map. reflexivity.
  - apply sort_values_perm.
  - apply Hbody.
  - unfold detailed_table. rewrite Date_cells_to_csv.
    apply descending_map, sort_values_sorted.
Qed.

(** C3 as worded fails: the first two days of the sample data are exported
    earliest first, while the detailed table shows them latest first. *)
Lemma export_raw_not_date_descending :
  let view := filtered_df create_sample_data first_two_days in
  Date_cells (csv_data view) = [Timestamp 2024 1 1; Timestamp 2024 1 2]
  /\ ~ descending (Date_cells (csv_data view))
  /\ Date_cells (detailed_table view) = [Timestamp 2024 1 2; Timestamp 2024 1 1].
Proof.
  cbv zeta. split; [reflexivity|]. split; [|reflexivity].
  intros H.
  change (Date_cells (csv_data (filtered_df create_sample_data first_two_days)))
    with [Timestamp 2024 1 1; Timestamp 2024 1 2] in H.
  inversion H as [|a l _ Hall]; subst.
  inversion Hall as [|b l' Hge _]; subst.
  vm_compute in Hge. apply Hge. reflexivity.
Qed.

(** ** C5, C6: the upload section *)

Lemma differs_last_upload (ss : SessionState) (f : UploadedFile) :
  last_upload
    (if differs (last_upload ss) (name f)
     then mkSession (data_loaded ss) (Some (name f)) (selected_segments ss)
     else ss)
  = Some (name f).
Proof.
  unfold differs. destruct (last_upload ss) as [l|] eqn:E; [|reflexivity].
  destruct (String.eqb_spec l (name f)) as [->|Hne]; simpl; [exact E | reflexivity].
Qed.

Lemma differs_other_keys (ss : SessionState) (f : UploadedFile) :
  let ss1 := if differs (last_upload ss) (name f)
             then mkSession (data_loaded ss) (Some (name f)) (selected_segments ss)
             else ss in
  data_loaded ss1 = data_loaded ss /\ selected_segments ss1 = selected_segments ss.
Proof. cbv zeta. destruct (differs (last_upload ss) (name f)); split; reflexivity. Qed.

(** C5, as the code has it.  When [process_uploaded_data] returns an
    error, the upload section leaves no frame in [df], so the dashboard
    below it is skipped, and leaves [data_loaded] and [selected_segments]
    as they were; it does record the file's name in [last_upload]; a
    non-empty error text is shown in the sidebar. *)
Theorem upload_failure_effects (ss : SessionState) (f : UploadedFile) (e : string) :
  process_uploaded_data f = (None, Some e) ->
  let '(ss', df, shown) := upload_section ss (Some f) in
  df = None
  /\ data_loaded ss' = data_loaded ss
  /\ selected_segments ss' = selected_segments ss
  /\ last_upload ss' = Some (name f)
  /\ shown = (if String.eqb e "" then None else Some (ParseFailure e)).
Proof.
  intros H. unfold upload_section. rewrite H. cbn [truthy].
  pose proof (differs_last_upload ss f) as Hl.
  pose proof (differs_other_keys ss f) as [Hd Hs].
  destruct (String.eqb e ""); cbn [negb]; repeat split; assumption.
Qed.

Lemma upload_failure_effects_witness :
  process_uploaded_data empty_upload
  = (None, Some "No columns to parse from file")
  /\ upload_section fresh_session (Some empty_upload)
     = (mkSession false (Some "empty.csv") None, None,
        Some (ParseFailure "No columns to parse from file")).
Proof.
  assert (H : process_uploaded_data empty_upload
              = (None, Some "No columns to parse from file")) by reflexivity.
  split; [exact H|].
  pose proof (upload_failure_effects fresh_session empty_upload _ H) as E.
  destruct (upload_section fresh_session (Some empty_upload)) as [[ss' df] shown].
  destruct E as [-> [Hd [Hs [Hl ->]]]].
  destruct ss' as [d l s]. simpl in Hd, Hs, Hl. subst. reflexivity.
Defined.

(** C5 as worded fails: a failed upload of a new file changes the session
    state, [last_upload] goes from [None] to the file's name. *)
Lemma upload_failure_changes_session :
  snd (process_uploaded_data empty_upload) = Some "No columns to parse from file"
  /\ last_upload fresh_session = None
  /\ last_upload (fst (fst (upload_section fresh_session (Some empty_upload))))
     = Some "empty.csv"
  /\ fst (fst (upload_section fresh_session (Some empty_upload))) <> fresh_session.
Proof.
  split; [reflexivity|]. split; [reflexivity|]. split; [reflexivity|].
  intros H. vm_compute in H. discriminate H.
Qed.

Lemma column_index_In (c : string) (cols : list string) :
  Csv.column_index c cols <> None <-> In c cols.
Proof.
  induction cols as [|x cols IH]; simpl; [tauto|].
  destruct (String.eqb_spec x c) as [->|Hne].
  - split; [tauto | discriminate].
  - destruct (Csv.column_index c cols); simpl in *.
    + split; [intros _; right; apply IH; discriminate | discriminate].
    + split; [tauto|]. intros [H|H]; [contradiction | apply IH; exact H].
Qed.

(** A frame comes back from [process_uploaded_data] only with the header
    that [pd.read_csv] gave it, and only if that header has [Date]. *)
Lemma processed_header (f : UploadedFile) (t : Table) :
  process_uploaded_data f = (Some t, None) ->
  exists t0, read_csv f = Ok t0 /\ header t = header t0 /\ In "Date" (header t).
Proof.
  unfold process_uploaded_data. intros H.
  destruct (read_csv f) as [t0|e]; [|discriminate].
  destruct (Csv.column_index "Date" (header t0)) as [j|] eqn:Ej; [|discriminate].
  destruct (to_datetime (parse_date f) (Csv.get_column j t0)) as [ts|e];
    [|discriminate].
  inversion H; subst. exists t0. simpl. repeat split.
  apply column_index_In. rewrite Ej. discriminate.
Qed.

(** A file without [Date] column never reaches the column check: indexing
    [df['Date']] raises inside the [try], which makes it a parse failure. *)
Lemma upload_without_Date (f : UploadedFile) (t0 : Table) :
  read_csv f = Ok t0 -> ~ In "Date" (header t0) ->
  process_uploaded_data f = (None, Some "'Date'").
Proof.
  intros Hr Hn. unfold process_uploaded_data. rewrite Hr.
  destruct (Csv.column_index "Date" (header t0)) eqn:E; [|reflexivity].
  exfalso. apply Hn, column_index_In. rewrite E. discriminate.
Qed.

Lemma missing_cols_In (t : Table) (c : string) :
  In c (missing_cols t) <-> In c required_cols /\ ~ In c (header t).
Proof.
  unfold missing_cols. rewrite filter_In, negb_true_iff.
  split; intros [H1 H2]; split; try exact H1.
  - intros Hin. assert (E : existsb (String.eqb c) (header t) = true).
    { apply existsb_exists. exists c. split; [exact Hin | apply String.eqb_refl]. }
    congruence.
  - destruct (existsb (String.eqb c) (header t)) eqn:E; [|reflexivity].
    apply existsb_exists in E. destruct E as [x [Hx Heq]].
    apply String.eqb_eq in Heq. subst x. contradiction.
Qed.

(** Where [process_uploaded_data] does return a frame [t] (its header
    then has [Date]) and [t] lacks at least one required column, the
    upload section reports [MissingColumns] with the list
    [missing_cols t] and leaves no frame; that list holds exactly the
    required columns absent from the header, every one of them; for the
    header [Date,Visitors,Revenue,Segment] it is [Orders] alone. *)
Theorem missing_columns_all_named (ss : SessionState) (f : UploadedFile) (t : Table) :
  process_uploaded_data f = (Some t, None) ->
  (exists c, In c required_cols /\ ~ In c (header t)) ->
  snd (upload_section ss (Some f)) = Some (MissingColumns (missing_cols t))
  /\ snd (fst (upload_section ss (Some f))) = None
  /\ (forall c, In c (missing_cols t) <-> In c required_cols /\ ~ In c (header t))
  /\ (header t = ["Date"; "Visitors"; "Revenue"; "Segment"] ->
      missing_cols t = ["Orders"]).
Proof.
  intros H [c Hc]. apply missing_cols_In in Hc.
  unfold upload_section. rewrite H. cbn [truthy].
  destruct (missing_cols t) as [|m ms] eqn:E; [contradiction|].
  split; [reflexivity|]. split; [reflexivity|].
  split.
  - intros c'. rewrite <- E. apply missing_cols_In.
  - intros Hh. rewrite <- E. unfold missing_cols. rewrite Hh. reflexivity.
Qed.

Lemma missing_columns_all_named_witness :
  snd (upload_section fresh_session (Some no_orders_upload))
  = Some (MissingColumns ["Orders"])
  /\ snd (fst (upload_section fresh_session (Some no_orders_upload))) = None.
Proof.
  pose (t := {| header := ["Date"; "Visitors"; "Revenue"; "Segment"];
                body := [[CTime (Timestamp 2024 1 1); CInt 100; CInt 1000;
                          CStr "Mobile"]] |}).
  assert (H : process_uploaded_data no_orders_upload = (Some t, None))
    by reflexivity.
  assert (Hm : exists c, In c required_cols /\ ~ In c (header t)).
  { exists "Orders". split; [simpl; tauto|].
    simpl. intros [E|[E|[E|[E|[]]]]]; discriminate E. }
  destruct (missing_columns_all_named fresh_session _ _ H Hm) as [H1 [H2 [_ H4]]].
  rewrite (H4 eq_refl) in H1.
  exact (conj H1 H2).
Defined.

(** C6, evaluated.  A file that [pd.read_csv] reads and that lacks only
    the [Date] column: line 38 indexes [df['Date']] inside the [try], the
    [KeyError] comes back as the error text ['Date'], the sidebar shows a
    parse failure, and the column check of lines 91-99 is never reached,
    although run on that header it would name [Date].  A file that lacks
    only [Orders] does reach the check and has [Orders] named. *)
Theorem missing_Date_never_named :
  read_csv no_date_upload
  = Ok {| header := ["Visitors"; "Orders"; "Revenue"; "Segment"];
          body := [[CInt 100; CInt 10; CInt 1000; CStr "Mobile"]] |}
  /\ process_uploaded_data no_date_upload = (None, Some "'Date'")
  /\ upload_section fresh_session (Some no_date_upload)
     = (mkSession false (Some "no_date.csv") None, None,
        Some (ParseFailure "'Date'"))
  /\ missing_cols {| header := ["Visitors"; "Orders"; "Revenue"; "Segment"];
                     body := [[CInt 100; CInt 10; CInt 1000; CStr "Mobile"]] |}
     = ["Date"]
  /\ snd (upload_section fresh_session (Some no_orders_upload))
     = Some (MissingColumns ["Orders"]).
Proof.
  split; [reflexivity|]. split; [reflexivity|]. split; [reflexivity|].
  split; reflexivity.
Qed.

(** * Further properties *)

(** ** Filtering again, and the filter of a first render *)

Lemma filter_filter_and {A : Type} (f g : A -> bool) (l : list A) :
  filter f (filter g l) = filter (fun x => g x && f x) l.
Proof.
  induction l as [|x l IH]; simpl; [reflexivity|].
  destruct (g x); simpl; [destruct (f x)|]; rewrite IH; reflexivity.
Qed.

(** X1.  Applying the same filter to an already filtered frame changes
    nothing. *)
Theorem filtered_df_idempotent (df : DataFrame) (F : FilterSpec) :
  filtered_df (filtered_df df F) F = filtered_df df F.
Proof.
  rewrite !filtered_df_filter, filter_filter_and.
  apply filter_ext. intros p. apply andb_diag.
Qed.

(** X2.  Two filters applied one after the other keep the rows that pass
    both, whichever is applied first. *)
Theorem filtered_df_twice (df : DataFrame) (F1 F2 : FilterSpec) :
  filtered_df (filtered_df df F1) F2 = filtered_df (filtered_df df F2) F1
  /\ forall i r, In (i, r) (filtered_df (filtered_df df F1) F2)
                 <-> In (i, r) df /\ included F1 r /\ included F2 r.
Proof.
  rewrite !filtered_df_filter, !filter_filter_and. split.
  - apply filter_ext. intros p. apply andb_comm.
  - intros i r. rewrite filter_In, andb_true_iff, !includedb_spec.
    simpl. tauto.
Qed.

Lemma fold_min_spec (l : list Z) (a : Z) :
  (forall c, In c (a :: l) -> fold_left Z.min l a <= c)
  /\ In (fold_left Z.min l a) (a :: l).
Proof.
  revert a. induction l as [|x l IH]; intros a; simpl.
  - split; [intros c [<-|[]]; lia | left; reflexivity].
  - destruct (IH (Z.min a x)) as [Hle Hin]. split.
    + intros c [<-|[<-|Hc]].
      * specialize (Hle (Z.min a x) (or_introl eq_refl)). lia.
      * specialize (Hle (Z.min a x) (or_introl eq_refl)). lia.
      * apply Hle. right. exact Hc.
    + destruct Hin as [Hin|Hin]; [|right; right; exact Hin].
      rewrite <- Hin. destruct (Z.min_spec a x) as [[_ ->]|[_ ->]]; auto.
Qed.

Lemma fold_max_spec (l : list Z) (a : Z) :
  (forall c, In c (a :: l) -> c <= fold_left Z.max l a)
  /\ In (fold_left Z.max l a) (a :: l).
Proof.
  revert a. induction l as [|x l IH]; intros a; simpl.
  - split; [intros c [<-|[]]; lia | left; reflexivity].
  - destruct (IH (Z.max a x)) as [Hle Hin]. split.
    + intros c [<-|[<-|Hc]].
      * specialize (Hle (Z.max a x) (or_introl eq_refl)). lia.
      * specialize (Hle (Z.max a x) (or_introl eq_refl)). lia.
      * apply Hle. right. exact Hc.
    + destruct Hin as [Hin|Hin]; [|right; right; exact Hin].
      rewrite <- Hin. destruct (Z.max_spec a x) as [[_ ->]|[_ ->]]; auto.
Qed.

Lemma dt_date_mono (a b : Z) : a <= b -> dt_date a <= dt_date b.
Proof. intros H. apply Z.div_le_mono; [unfold ns_per_day; lia | exact H]. Qed.

(** The two ends of the date range of a frame that has rows. *)
Lemma date_range_of_frame (df : DataFrame) :
  df <> [] ->
  exists mn mx,
    min_date df = Some mn /\ max_date df = Some mx
    /\ (forall r, In r (rows_of df) -> mn <= dt_date (Date r) <= mx)
    /\ (exists r, In r (rows_of df) /\ dt_date (Date r) = mx).
Proof.
  intros Hne. unfold min_date, max_date.
  destruct df as [|p df]; [contradiction|]. clear Hne.
  cbn [rows_of map series_min series_max option_map].
  fold (rows_of df).
  destruct (fold_min_spec (map Date (rows_of df)) (Date (snd p))) as [Hmin _].
  destruct (fold_max_spec (map Date (rows_of df)) (Date (snd p))) as [Hmax Hat].
  eexists. eexists. split; [reflexivity|]. split; [reflexivity|]. split.
  - intros r Hr.
    assert (Hin : In (Date r) (Date (snd p) :: map Date (rows_of df))).
    { destruct Hr as [<-|Hr]; [left; reflexivity | right; apply in_map, Hr]. }
    split; apply dt_date_mono; [apply Hmin | apply Hmax]; exact Hin.
  - change (Date (snd p) :: map Date (rows_of df))
      with (map Date (snd p :: rows_of df)) in Hat.
    apply in_map_iff in Hat. destruct Hat as [r [Hr Hin]].
    exists r. split; [exact Hin | rewrite Hr; reflexivity].
Qed.

Lemma available_segments_In (df : DataFrame) (s : string) :
  In s (available_segments df) <-> In s (map Segment (rows_of df)).
Proof. apply group_keys_In. Qed.

Lemma filter_all {A : Type} (f : A -> bool) (l : list A) :
  (forall x, In x l -> f x = true) -> filter f l = l.
Proof.
  induction l as [|x l IH]; simpl; intros H; [reflexivity|].
  rewrite (H x (or_introl eq_refl)), IH; [reflexivity|].
  intros y Hy. apply H. right. exact Hy.
Qed.

(** X4.  With both date inputs at the ends of their allowed range and every
    available segment selected, a frame that has rows passes the filter
    whole. *)
Theorem full_filter_keeps_everything (df : DataFrame) :
  df <> [] ->
  exists F, full_filter df = Some F /\ filtered_df df F = df.
Proof.
  intros Hne. destruct (date_range_of_frame df Hne) as [mn [mx [Hmn [Hmx [Hb _]]]]].
  unfold full_filter. rewrite Hmn, Hmx. eexists. split; [reflexivity|].
  rewrite filtered_df_filter. apply filter_all. intros p Hp.
  apply includedb_spec. unfold included. cbn [start_date end_date segments].
  assert (Hr : In (snd p) (rows_of df)) by (apply in_map, Hp).
  split; [apply Hb, Hr|]. apply available_segments_In, in_map, Hr.
Qed.

Lemma full_filter_keeps_everything_witness :
  create_sample_data <> []
  /\ exists F, full_filter create_sample_data = Some F
               /\ filtered_df create_sample_data F = create_sample_data.
Proof.
  assert (H : create_sample_data <> []) by (vm_compute; discriminate).
  exact (conj H (full_filter_keeps_everything create_sample_data H)).
Defined.

(** X5.  On a first render of a frame that has rows, the start date offered
    lies within the bounds of its date input, the range shown is the last
    week at most (eight calendar days), and the filtered frame is not
    empty: the KPI block runs. *)
Theorem default_filter_shows_data (df : DataFrame) :
  df <> [] ->
  exists F mn mx,
    default_filter df = Some F
    /\ min_date df = Some mn /\ max_date df = Some mx
    /\ mn <= start_date F <= mx
    /\ end_date F = mx
    /\ end_date F - start_date F <= 7
    /\ filtered_df df F <> []
    /\ kpi_block (filtered_df df F) = Some (compute_kpis (filtered_df df F)).
Proof.
  intros Hne.
  destruct (date_range_of_frame df Hne) as [mn [mx [Hmn [Hmx [Hb [r [Hr Hd]]]]]]].
  assert (Hle : mn <= mx) by (specialize (Hb r Hr); lia).
  unfold default_filter. rewrite Hmn, Hmx.
  eexists. exists mn, mx. split; [reflexivity|].
  cbn [start_date end_date]. unfold default_start.
  assert (Hin : exists p, In p (filtered_df df
                  (mkFilter (Z.max (mx - 7) mn) mx (available_segments df)))).
  { unfold rows_of in Hr. apply in_map_iff in Hr. destruct Hr as [p [Hp Hin]].
    exists p. rewrite filtered_df_filter. apply filter_In. split; [exact Hin|].
    apply includedb_spec. unfold included. cbn [start_date end_date segments].
    rewrite Hp, Hd. split; [lia|].
    apply available_segments_In. rewrite <- Hp. apply in_map, in_map, Hin. }
  destruct Hin as [p Hin].
  repeat (split; [first [reflexivity | lia]|]).
  split.
  - intros E. rewrite E in Hin. exact Hin.
  - unfold kpi_block.
    destruct (filtered_df df (mkFilter (Z.max (mx - 7) mn) mx (available_segments df)));
      [contradiction | reflexivity].
Qed.

Lemma default_filter_shows_data_witness :
  create_sample_data <> []
  /\ exists F mn mx,
       default_filter create_sample_data = Some F
       /\ min_date create_sample_data = Some mn
       /\ max_date create_sample_data = Some mx
       /\ mn <= start_date F <= mx
       /\ end_date F = mx
       /\ end_date F - start_date F <= 7
       /\ filtered_df create_sample_data F <> []
       /\ kpi_block (filtered_df create_sample_data F)
          = Some (compute_kpis (filtered_df create_sample_data F)).
Proof.
  assert (H : create_sample_data <> []) by (vm_compute; discriminate).
  exact (conj H (default_filter_shows_data create_sample_data H)).
Defined.

Lemma kpi_ratios_finite (df : DataFrame) :
  Float.is_finite (conversion_rate (compute_kpis df)) = true
  /\ Float.is_finite (avg_order_value (compute_kpis df)) = true.
Proof.
  unfold compute_kpis. cbn [conversion_rate avg_order_value].
  unfold conversion_rate_of, avg_order_value_of. split.
  - destruct (Z.ltb_spec 0 (total Visitors df)); [|reflexivity].
    rewrite truediv_nonzero by lia. reflexivity.
  - destruct (Z.ltb_spec 0 (total Orders df)); [|reflexivity].
    rewrite truediv_nonzero by lia. reflexivity.
Qed.

(** ** The KPI block *)



Lemma mean_nonempty (col : list Q) :
  col <> [] ->
  mean col = Finite (Pandas.sum_float col / inject_Z (Z.of_nat (List.length col))).
Proof.
  intros H. unfold mean. apply truediv_nonzero.
  destruct col; [contradiction | simpl; lia].
Qed.

(** X6.  The KPI block is skipped exactly on the empty frame, where the
    three daily averages would be NaN; whenever it runs, the conversion
    rate and the daily averages of visitors and of orders are finite
    numbers. *)
Theorem kpi_block_figures_finite (df : DataFrame) :
  (kpi_block df = None <-> df = [])
  /\ (df = [] -> avg_daily_visitors (compute_kpis df) = NaN
                 /\ avg_daily_orders (compute_kpis df) = NaN
                 /\ avg_daily_revenue (compute_kpis df) = NaN)
  /\ (forall k, kpi_block df = Some k ->
        Float.is_finite (conversion_rate k) = true
        /\ Float.is_finite (avg_daily_visitors k) = true
        /\ Float.is_finite (avg_daily_orders k) = true).
Proof.
  split; [|split].
  - unfold kpi_block. destruct df; simpl; split; intros H;
      solve [reflexivity | discriminate].
  - intros ->. repeat split.
  - intros k Hk. unfold kpi_block in Hk.
    destruct df as [|p df'] eqn:E; [discriminate|]. rewrite <- E in *.
    assert (Hk' : k = compute_kpis df) by (rewrite E in *; simpl in Hk; congruence).
    subst k. split; [apply kpi_ratios_finite|].
    unfold compute_kpis. cbn [avg_daily_visitors avg_daily_orders].
    split; rewrite mean_nonempty; try reflexivity;
      rewrite E; discriminate.
Qed.

Lemma zsum_pointwise_le (f g : Row -> Z) (rows : list Row) :
  Forall (fun r => 0 <= f r <= g r) rows ->
  0 <= zsum (map f rows) <= zsum (map g rows).
Proof.
  induction 1 as [|r rows Hr _ IH]; simpl; [lia|].
  fold (zsum (map f rows)). fold (zsum (map g rows)). lia.
Qed.

(** X7.  For rows with no more orders than visitors and no negative count,
    whose visitors add up within the int64 range, the conversion rate is a
    percentage: it lies between 0 and 100. *)
Theorem conversion_rate_is_percentage (df : DataFrame) :
  Forall (fun r => 0 <= Orders r <= Visitors r) (rows_of df) ->
  zsum (map Visitors (rows_of df)) < Int64.half_modulus ->
  exists q, conversion_rate (compute_kpis df) = Finite q /\ (0 <= q <= 100)%Q.
Proof.
  intros Hrows Hfit.
  pose proof (zsum_pointwise_le Orders Visitors _ Hrows) as Hb.
  assert (Hv : total Visitors df = zsum (map Visitors (rows_of df))).
  { unfold total. rewrite sum_int64_wrap. apply wrap_small.
    unfold Int64.in_range. unfold Int64.half_modulus in *. lia. }
  assert (Ho : total Orders df = zsum (map Orders (rows_of df))).
  { unfold total. rewrite sum_int64_wrap. apply wrap_small.
    unfold Int64.in_range. unfold Int64.half_modulus in *. lia. }
  unfold compute_kpis. cbn [conversion_rate]. unfold conversion_rate_of.
  rewrite Hv, Ho.
  set (v := zsum (map Visitors (rows_of df))) in *.
  set (o := zsum (map Orders (rows_of df))) in *.
  destruct (Z.ltb_spec 0 v) as [Hpos|Hz].
  - rewrite truediv_nonzero by lia. eexists. split; [reflexivity|].
    assert (Hvq : (0 < inject_Z v)%Q) by (unfold Qlt; simpl; lia).
    assert (Hoq : (0 <= inject_Z o)%Q) by (unfold Qle; simpl; lia).
    assert (Hle : (inject_Z o <= inject_Z v)%Q) by (unfold Qle; simpl; lia).
    assert (H0 : (0 <= inject_Z o / inject_Z v)%Q).
    { apply Qle_shift_div_l; [exact Hvq | lra]. }
    assert (H1 : (inject_Z o / inject_Z v <= 1)%Q).
    { apply Qle_shift_div_r; [exact Hvq | lra]. }
    lra.
  - eexists. split; [reflexivity|]. lra.
Qed.

Lemma conversion_rate_is_percentage_witness :
  Forall (fun r => 0 <= Orders r <= Visitors r)
         (rows_of (Pandas.of_rows scenario_rows))
  /\ zsum (map Visitors (rows_of (Pandas.of_rows scenario_rows)))
     < Int64.half_modulus
  /\ exists q, conversion_rate (compute_kpis (Pandas.of_rows scenario_rows))
               = Finite q
               /\ (0 <= q <= 100)%Q.
Proof.
  assert (H1 : Forall (fun r => 0 <= Orders r <= Visitors r)
                      (rows_of (Pandas.of_rows scenario_rows)))
    by (repeat constructor; simpl; lia).
  assert (H2 : zsum (map Visitors (rows_of (Pandas.of_rows scenario_rows)))
               < Int64.half_modulus)
    by (vm_compute; reflexivity).
  exact (conj H1 (conj H2 (conversion_rate_is_percentage _ H1 H2))).
Defined.

(** ** The segment summary and the segment charts *)






Lemma insert_sorted_Sorted (x : string) (l : list string) :
  Sorted label_le l -> Sorted label_le (Pandas.insert_sorted x l).
Proof.
  induction 1 as [|y l Hs IH Hhd]; simpl.
  - constructor; constructor.
  - destruct (String.leb x y) eqn:E.
    + constructor; [constructor; assumption|]. constructor. exact E.
    + constructor; [exact IH|].
      assert (Hyx : label_le y x).
      { destruct (String.leb_total x y) as [H|H]; [congruence | exact H]. }
      destruct l as [|z l]; simpl.
      * constructor. exact Hyx.
      * destruct (String.leb x z); constructor; [exact Hyx|].
        inversion Hhd; assumption.
Qed.

Lemma sorted_Sorted (l : list string) : Sorted label_le (Pandas.sorted l).
Proof.
  induction l as [|x l IH]; simpl; [constructor|].
  apply insert_sorted_Sorted, IH.
Qed.

(** X10.  The segment summary has one row per distinct segment of the frame
    and no other: its labels are the segments that occur, each once, in
    alphabetical order; and each row carries the sums over exactly the
    rows of its segment. *)
Theorem segment_summary_one_row_per_segment (df : DataFrame) :
  let labels := map s_Segment (segment_summary df) in
  NoDup labels
  /\ Sorted label_le labels
  /\ (forall s, In s labels <-> exists r, In r (rows_of df) /\ Segment r = s)
  /\ (forall row, In row (segment_summary df) ->
        let own := filter (fun r => String.eqb (Segment r) (s_Segment row))
                          (rows_of df) in
        own <> []
        /\ s_Visitors row = Pandas.sum_int64 (map Visitors own)
        /\ s_Orders row = Pandas.sum_int64 (map Orders own)
        /\ s_Revenue row = Pandas.sum_float (map Revenue own)).
Proof.
  assert (E : map s_Segment (segment_summary df) = group_keys df).
  { unfold segment_summary, groupby_Segment. rewrite !map_map.
    cbn [s_Segment segment_row fst]. apply map_id. }
  cbv zeta. rewrite E. split; [apply group_keys_NoDup|].
  split; [apply sorted_Sorted|]. split.
  - intros s. rewrite group_keys_In, in_map_iff.
    split; intros [r [H1 H2]]; exists r; split; assumption.
  - intros row Hrow. unfold segment_summary, groupby_Segment in Hrow.
    rewrite map_map in Hrow. apply in_map_iff in Hrow.
    destruct Hrow as [k [<- Hk]]. cbn [segment_row s_Segment s_Visitors s_Orders
                                        s_Revenue fst snd].
    split; [|repeat split].
    apply group_keys_In, in_map_iff in Hk. destruct Hk as [r [Hr Hin]].
    intros C.
    assert (Hf : In r (filter (fun r0 => String.eqb (Segment r0) k) (rows_of df))).
    { apply filter_In. split; [exact Hin | apply String.eqb_eq; exact Hr]. }
    rewrite C in Hf. exact Hf.
Qed.

Lemma segment_summary_one_row_per_segment_witness :
  let own := filter (fun r => String.eqb (Segment r) "Desktop")
                    (rows_of (Pandas.of_rows scenario_rows)) in
  In (segment_row ("Desktop", own)) (segment_summary (Pandas.of_rows scenario_rows))
  /\ own <> []
  /\ s_Visitors (segment_row ("Desktop", own)) = 200.
Proof.
  intros own.
  assert (H : In (segment_row ("Desktop", own))
                 (segment_summary (Pandas.of_rows scenario_rows)))
    by (left; reflexivity).
  destruct (segment_summary_one_row_per_segment (Pandas.of_rows scenario_rows))
    as [_ [_ [_ Hrows]]].
  destruct (Hrows _ H) as [Hne [Hv _]].
  exact (conj H (conj Hne Hv)).
Defined.

Lemma performance_rate_finite_iff (g : string * list Row) :
  Float.is_finite (p_ConversionRate (performance_row g)) = true
  <-> p_Visitors (performance_row g) <> 0.
Proof.
  unfold performance_row. cbn [p_ConversionRate p_Visitors].
  set (v := Pandas.sum_int64 (map Visitors (snd g))).
  set (o := Pandas.sum_int64 (map Orders (snd g))).
  split.
  - intros H E. rewrite E in H. unfold Float.truediv in H.
    simpl (Qeq_bool (inject_Z 0) 0) in H. cbv iota in H.
    destruct (Qeq_bool (inject_Z o) 0); simpl in H; [discriminate H|].
    destruct (Qeq_bool 100 0); discriminate H.
  - intros H. rewrite truediv_nonzero by exact H. reflexivity.
Qed.

(** X12.  The two segment charts and the segment export show the same groups
    with the same sums; the export's rate is the performance chart's rate
    rounded to two decimals; and the chart's rate of a segment is a finite
    number exactly when the segment's visitors do not sum to 0. *)
Theorem segment_charts_agree_with_export (df : DataFrame) :
  segment_distribution df
  = map (fun s => (s_Segment s, s_Visitors s)) (segment_summary df)
  /\ map (fun p => (p_Segment p, p_Visitors p, p_Orders p, p_Revenue p))
         (segment_performance df)
     = map (fun s => (s_Segment s, s_Visitors s, s_Orders s, s_Revenue s))
           (segment_summary df)
  /\ map s_ConversionRate (segment_summary df)
     = map (fun p => Float.round 2 (p_ConversionRate p)) (segment_performance df)
  /\ Forall (fun p => Float.is_finite (p_ConversionRate p) = true
                      <-> p_Visitors p <> 0)
            (segment_performance df).
Proof.
  unfold segment_distribution, segment_performance, segment_summary.
  rewrite !map_map. split; [reflexivity|]. split; [reflexivity|].
  split; [reflexivity|].
  apply Forall_map, Forall_forall. intros g _. apply performance_rate_finite_iff.
Qed.

(** ** The upload section *)

Lemma process_shape (f : UploadedFile) :
  (exists t, process_uploaded_data f = (Some t, None))
  \/ (exists e, process_uploaded_data f = (None, Some e)).
Proof.
  unfold process_uploaded_data.
  destruct (read_csv f) as [t0|e]; [|right; eexists; reflexivity].
  destruct (Csv.column_index "Date" (header t0)); [|right; eexists; reflexivity].
  destruct (to_datetime (parse_date f) (Csv.get_column n t0));
    [left | right]; eexists; reflexivity.
Qed.

Lemma missing_cols_nil (t : Table) :
  missing_cols t = [] -> forall c, In c required_cols -> In c (header t).
Proof.
  intros E c Hc.
  destruct (existsb (String.eqb c) (header t)) eqn:B.
  - apply existsb_exists in B. destruct B as [x [Hx Heq]].
    apply String.eqb_eq in Heq. subst x. exact Hx.
  - exfalso. assert (H : In c (missing_cols t)).
    { unfold missing_cols. apply filter_In. split; [exact Hc|]. rewrite B. reflexivity. }
    rewrite E in H. exact H.
Qed.

(** X13.  The upload section hands a frame on to the dashboard only when every
    required column is in its header; it then reports success, sets
    [data_loaded], and has the file's name in [last_upload]. *)
Theorem upload_frame_has_required_columns
        (ss ss' : SessionState) (f : option UploadedFile) (t : Table)
        (shown : option sidebar) :
  upload_section ss f = (ss', Some t, shown) ->
  (forall c, In c required_cols -> In c (header t))
  /\ shown = Some Loaded
  /\ data_loaded ss' = true
  /\ exists file, f = Some file
                  /\ process_uploaded_data file = (Some t, None)
                  /\ last_upload ss' = Some (name file).
Proof.
  unfold upload_section. destruct f as [file|]; [|discriminate].
  pose proof (differs_last_upload ss file) as Hl.
  destruct (process_shape file) as [[t' E]|[e E]]; rewrite E; cbn [truthy].
  - destruct (missing_cols t') eqn:M; intros H; inversion H; subst.
    split; [apply missing_cols_nil; exact M|].
    split; [reflexivity|]. split; [reflexivity|].
    exists file. cbn [last_upload]. auto.
  - destruct (negb (String.eqb e "")); intros H; inversion H.
Qed.

Lemma upload_frame_has_required_columns_witness :
  let good :=
    mkUpload "day.csv"
      (Ok {| header := ["Date"; "Visitors"; "Orders"; "Revenue"; "Segment"];
             body := [[CStr "2024-01-01"; CInt 100; CInt 10; CInt 1000;
                       CStr "Mobile"]] |})
      (fun _ => Ok (Timestamp 2024 1 1)) in
  let t := {| header := ["Date"; "Visitors"; "Orders"; "Revenue"; "Segment"];
              body := [[CTime (Timestamp 2024 1 1); CInt 100; CInt 10; CInt 1000;
                        CStr "Mobile"]] |} in
  upload_section fresh_session (Some good)
  = (mkSession true (Some "day.csv") None, Some t, Some Loaded)
  /\ forall c, In c required_cols -> In c (header t).
Proof.
  intros good t.
  assert (H : upload_section fresh_session (Some good)
              = (mkSession true (Some "day.csv") None, Some t, Some Loaded))
    by reflexivity.
  exact (conj H (proj1 (upload_frame_has_required_columns _ _ _ _ _ H))).
Defined.

(** X14.  Running the upload section again with the same uploader content,
    from the state the first run left, changes nothing: same state, same
    frame, same message. *)
Theorem upload_section_rerun_stable (ss : SessionState) (f : option UploadedFile) :
  upload_section (fst (fst (upload_section ss f))) f = upload_section ss f.
Proof.
  unfold upload_section. destruct f as [file|]; [|reflexivity].
  pose proof (differs_last_upload ss file) as Hl.
  set (ss1 := if differs (last_upload ss) (name file)
              then mkSession (data_loaded ss) (Some (name file)) (selected_segments ss)
              else ss) in *.
  assert (Hd : forall s, last_upload s = Some (name file) ->
                         differs (last_upload s) (name file) = false).
  { intros s E. rewrite E. unfold differs. rewrite String.eqb_refl. reflexivity. }
  destruct (process_uploaded_data file) as [df error].
  destruct (truthy error); cbn [fst].
  - rewrite (Hd ss1 Hl). reflexivity.
  - destruct df as [t|]; cbn [fst].
    + destruct (missing_cols t); cbn [fst].
      * rewrite Hd by exact Hl. reflexivity.
      * rewrite (Hd ss1 Hl). reflexivity.
    + rewrite (Hd ss1 Hl). reflexivity.
Qed.

Lemma upload_section_flags (ss : SessionState) (f : option UploadedFile) :
  (data_loaded ss = true -> data_loaded (fst (fst (upload_section ss f))) = true)
  /\ (last_upload ss <> None -> last_upload (fst (fst (upload_section ss f))) <> None)
  /\ selected_segments (fst (fst (upload_section ss f))) = selected_segments ss
  /\ (forall file, f = Some file ->
        last_upload (fst (fst (upload_section ss f))) = Some (name file)).
Proof.
  unfold upload_section. destruct f as [file|].
  - pose proof (differs_last_upload ss file) as Hl.
    pose proof (differs_other_keys ss file) as [Hd Hs]. cbv zeta in Hd, Hs.
    set (ss1 := if differs (last_upload ss) (name file)
                then mkSession (data_loaded ss) (Some (name file)) (selected_segments ss)
                else ss) in *.
    assert (Hfile : forall file0, Some file = Some file0 -> name file = name file0)
      by (intros file0 E; inversion E; reflexivity).
    destruct (process_uploaded_data file) as [df error].
    destruct (truthy error); cbn [fst].
    + repeat split; try congruence;
        intros file0 E; rewrite <- (Hfile _ E); exact Hl.
    + destruct df as [t|]; [destruct (missing_cols t)|];
        cbn [fst data_loaded last_upload selected_segments];
        repeat split; try congruence;
          intros file0 E; rewrite <- (Hfile _ E); exact Hl.
  - cbn [fst]. repeat split; auto. intros file E. discriminate E.
Qed.

(** X15.  Over any sequence of renders of the upload section, [data_loaded]
    once set stays set and [last_upload] once set is never cleared,
    whatever is uploaded, fails to parse or is removed; [selected_segments]
    is never touched; and after a render with a file, [last_upload] is
    that file's name. *)
Theorem upload_renders_keep_flags (files : list (option UploadedFile))
        (ss : SessionState) :
  (data_loaded ss = true -> data_loaded (upload_renders ss files) = true)
  /\ (last_upload ss <> None -> last_upload (upload_renders ss files) <> None)
  /\ selected_segments (upload_renders ss files) = selected_segments ss
  /\ (forall file, last_upload (upload_renders ss (files ++ [Some file]))
                   = Some (name file)).
Proof.
  revert ss. induction files as [|f files IH]; intros ss.
  - cbn [upload_renders app]. repeat split; auto.
    intros file. apply (upload_section_flags ss (Some file)). reflexivity.
  - cbn [upload_renders app].
    destruct (upload_section_flags ss f) as [H1 [H2 [H3 _]]].
    destruct (IH (fst (fst (upload_section ss f)))) as [I1 [I2 [I3 I4]]].
    repeat split; auto. congruence.
Qed.

Lemma upload_renders_keep_flags_witness :
  data_loaded (mkSession true (Some "day.csv") None) = true
  /\ data_loaded (upload_renders (mkSession true (Some "day.csv") None)
                                 [Some empty_upload; None; Some no_orders_upload])
     = true.
Proof.
  assert (H : data_loaded (mkSession true (Some "day.csv") None) = true)
    by reflexivity.
  exact (conj H (proj1 (upload_renders_keep_flags
                          [Some empty_upload; None; Some no_orders_upload] _) H)).
Defined.

(** ** What [process_uploaded_data] does to a file *)

Lemma to_datetime_ok (parse : cell -> result Z) (col ts : list cell) :
  to_datetime parse col = Ok ts ->
  List.length ts = List.length col
  /\ forall i c, nth_error col i = Some c ->
       exists ns, parse c = Ok ns /\ nth_error ts i = Some (CTime ns).
Proof.
  revert ts. induction col as [|c0 col IH]; intros ts H; simpl in H.
  - inversion H; subst. split; [reflexivity|]. intros [|i] c Hc; discriminate Hc.
  - destruct (parse c0) as [ns|e] eqn:P; [|discriminate].
    destruct (to_datetime parse col) as [rest|e]; [|discriminate].
    inversion H; subst. destruct (IH rest eq_refl) as [Hlen Hcells].
    split; [simpl; rewrite Hlen; reflexivity|].
    intros [|i] c Hc; simpl in Hc.
    + inversion Hc; subst. exists ns. split; [exact P | reflexivity].
    + apply Hcells. exact Hc.
Qed.

Lemma to_datetime_raised (parse : cell -> result Z) (col : list cell) (e : string) :
  to_datetime parse col = Raised e -> exists c, In c col /\ parse c = Raised e.
Proof.
  induction col as [|c0 col IH]; intros H; simpl in H; [discriminate|].
  destruct (parse c0) as [ns|e0] eqn:P.
  - destruct (to_datetime parse col) as [rest|e1]; [discriminate|].
    inversion H; subst. destruct (IH eq_refl) as [c [Hc Hp]].
    exists c. split; [right; exact Hc | exact Hp].
  - inversion H; subst. exists c0. split; [left; reflexivity | exact P].
Qed.

Lemma set_nth_length (j : nat) (c : cell) (row : list cell) :
  List.length (Csv.set_nth j c row) = List.length row.
Proof.
  revert j. induction row as [|x row IH]; intros [|j]; simpl; auto.
Qed.

Lemma set_nth_other (j k : nat) (c : cell) (row : list cell) :
  k <> j -> nth_error (Csv.set_nth j c row) k = nth_error row k.
Proof.
  revert j k. induction row as [|x row IH]; intros [|j] [|k] H; simpl; auto.
  - contradiction.
Qed.

Lemma set_nth_same (j : nat) (c : cell) (row : list cell) :
  (j < List.length row)%nat -> nth_error (Csv.set_nth j c row) j = Some c.
Proof.
  revert j. induction row as [|x row IH]; intros [|j] H; simpl in *; try lia; auto.
  apply IH. lia.
Qed.

Lemma column_index_nth (c : string) (cols : list string) (j : nat) :
  Csv.column_index c cols = Some j -> nth_error cols j = Some c.
Proof.
  revert j. induction cols as [|x cols IH]; intros j H; simpl in H; [discriminate|].
  destruct (String.eqb_spec x c) as [->|Hne].
  - inversion H; subst. reflexivity.
  - destruct (Csv.column_index c cols) as [j'|]; [|discriminate].
    inversion H; subst. simpl. apply IH. reflexivity.
Qed.

Lemma nth_error_set_column (j : nat) (values : list cell) (t : Table)
      (i : nat) (line0 : list cell) (v : cell) :
  nth_error (body t) i = Some line0 -> nth_error values i = Some v ->
  nth_error (body (Csv.set_column j values t)) i = Some (Csv.set_nth j v line0).
Proof.
  unfold Csv.set_column. cbn [body]. generalize (body t). clear t.
  intros b. revert b values. induction i as [|i IH]; intros [|l b] [|w values] Hb Hv;
    simpl in *; try discriminate.
  - inversion Hb; inversion Hv; subst. reflexivity.
  - apply IH; assumption.
Qed.

(** X16.  A frame returned by [process_uploaded_data] is what [pd.read_csv]
    gave, with only the [Date] column rewritten: same header, same number
    of lines, every line of the same length with all its other cells as
    read, and the [Date] cell replaced by the timestamp the date parser
    gave for it. *)
Theorem process_rewrites_only_Date (f : UploadedFile) (t : Table) :
  process_uploaded_data f = (Some t, None) ->
  exists t0 j,
    read_csv f = Ok t0
    /\ nth_error (header t0) j = Some "Date"
    /\ header t = header t0
    /\ List.length (body t) = List.length (body t0)
    /\ forall i line0, nth_error (body t0) i = Some line0 ->
         exists line,
           nth_error (body t) i = Some line
           /\ List.length line = List.length line0
           /\ (forall k, k <> j -> nth_error line k = nth_error line0 k)
           /\ ((j < List.length line0)%nat ->
               exists ns, parse_date f (nth j line0 (CFloat NaN)) = Ok ns
                          /\ nth_error line j = Some (CTime ns)).
Proof.
  unfold process_uploaded_data. intros H.
  destruct (read_csv f) as [t0|e]; [|discriminate].
  destruct (Csv.column_index "Date" (header t0)) as [j|] eqn:Ej; [|discriminate].
  destruct (to_datetime (parse_date f) (Csv.get_column j t0)) as [ts|e] eqn:Et;
    [|discriminate].
  inversion H; subst. clear H.
  destruct (to_datetime_ok _ _ _ Et) as [Hlen Hcells].
  unfold Csv.get_column in Hlen, Hcells. rewrite length_map in Hlen.
  exists t0, j. split; [reflexivity|].
  split; [apply column_index_nth; exact Ej|]. split; [reflexivity|]. split.
  - unfold Csv.set_column. cbn [body].
    rewrite length_map, length_combine, Hlen. apply Nat.min_id.
  - intros i line0 Hline.
    assert (Hc : nth_error (map (fun line => nth j line (CFloat NaN)) (body t0)) i
                 = Some (nth j line0 (CFloat NaN))).
    { rewrite nth_error_map, Hline. reflexivity. }
    destruct (Hcells _ _ Hc) as [ns [Hp Hts]].
    exists (Csv.set_nth j (CTime ns) line0).
    split; [apply nth_error_set_column; assumption|].
    split; [apply set_nth_length|].
    split; [intros k Hk; apply set_nth_other; exact Hk|].
    intros Hj. exists ns. split; [exact Hp | apply set_nth_same; exact Hj].
Qed.

Lemma process_rewrites_only_Date_witness :
  let t := {| header := ["Date"; "Visitors"; "Revenue"; "Segment"];
              body := [[CTime (Timestamp 2024 1 1); CInt 100; CInt 1000;
                        CStr "Mobile"]] |} in
  process_uploaded_data no_orders_upload = (Some t, None)
  /\ exists t0 j,
       read_csv no_orders_upload = Ok t0
       /\ nth_error (header t0) j = Some "Date"
       /\ header t = header t0
       /\ List.length (body t) = List.length (body t0).
Proof.
  intros t.
  assert (H : process_uploaded_data no_orders_upload = (Some t, None))
    by reflexivity.
  destruct (process_rewrites_only_Date _ _ H) as [t0 [j [H1 [H2 [H3 [H4 _]]]]]].
  exact (conj H (ex_intro _ t0 (ex_intro _ j (conj H1 (conj H2 (conj H3 H4)))))).
Defined.

(** X17.  When [process_uploaded_data] returns an error, it is the message of
    the exception [pd.read_csv] raised, or the [KeyError] text for a file
    without [Date] column, or the message the date parser raised on one of
    the file's [Date] cells; and it never returns both a frame and an
    error, nor neither. *)
Theorem process_failure_causes (f : UploadedFile) :
  ((exists t, process_uploaded_data f = (Some t, None))
   \/ (exists e, process_uploaded_data f = (None, Some e)))
  /\ forall e, process_uploaded_data f = (None, Some e) ->
       read_csv f = Raised e
       \/ (exists t0, read_csv f = Ok t0 /\ ~ In "Date" (header t0) /\ e = "'Date'")
       \/ (exists t0 j line,
             read_csv f = Ok t0
             /\ nth_error (header t0) j = Some "Date"
             /\ In line (body t0)
             /\ parse_date f (nth j line (CFloat NaN)) = Raised e).
Proof.
  split; [apply process_shape|].
  unfold process_uploaded_data. intros e H.
  destruct (read_csv f) as [t0|e0]; [|left; congruence].
  right.
  destruct (Csv.column_index "Date" (header t0)) as [j|] eqn:Ej.
  - right.
    destruct (to_datetime (parse_date f) (Csv.get_column j t0)) as [ts|e1] eqn:Et;
      [discriminate|].
    inversion H; subst. apply to_datetime_raised in Et.
    destruct Et as [c [Hc Hp]]. unfold Csv.get_column in Hc.
    apply in_map_iff in Hc. destruct Hc as [line [<- Hline]].
    exists t0, j, line. split; [reflexivity|].
    split; [apply column_index_nth; exact Ej|]. split; assumption.
  - left. exists t0. split; [reflexivity|]. split; [|congruence].
    intros Hin. apply column_index_In in Hin. apply Hin. exact Ej.
Qed.

Lemma process_failure_causes_witness :
  process_uploaded_data empty_upload = (None, Some "No columns to parse from file")
  /\ (read_csv empty_upload = Raised "No columns to parse from file"
      \/ (exists t0, read_csv empty_upload = Ok t0 /\ ~ In "Date" (header t0)
                     /\ "No columns to parse from file" = "'Date'")
      \/ (exists t0 j line,
            read_csv empty_upload = Ok t0
            /\ nth_error (header t0) j = Some "Date"
            /\ In line (body t0)
            /\ parse_date empty_upload (nth j line (CFloat NaN))
               = Raised "No columns to parse from file")).
Proof.
  assert (H : process_uploaded_data empty_upload
              = (None, Some "No columns to parse from file")) by reflexivity.
  exact (conj H (proj2 (process_failure_causes empty_upload) _ H)).
Defined.

(** ** More on the filter and the raw export *)

(** X3.  Widening a filter (earlier start, later end, more segments) never
    loses a row. *)
Theorem filtered_df_monotone (df : DataFrame) (F F' : FilterSpec) :
  start_date F' <= start_date F ->
  end_date F <= end_date F' ->
  incl (segments F) (segments F') ->
  incl (filtered_df df F) (filtered_df df F').
Proof.
  intros Hs He Hseg p. rewrite !filtered_df_filter, !filter_In, !includedb_spec.
  unfold included. intros [Hin [[H1 H2] H3]].
  split; [exact Hin|]. split; [lia | apply Hseg; exact H3].
Qed.

Lemma filtered_df_monotone_witness :
  start_date first_week <= start_date first_two_days
  /\ end_date first_two_days <= end_date first_week
  /\ incl (segments first_two_days) (segments first_week)
  /\ incl (filtered_df create_sample_data first_two_days)
          (filtered_df create_sample_data first_week).
Proof.
  assert (H1 : start_date first_week <= start_date first_two_days)
    by (vm_compute; discriminate).
  assert (H2 : end_date first_two_days <= end_date first_week)
    by (vm_compute; discriminate).
  assert (H3 : incl (segments first_two_days) (segments first_week))
    by (intros s Hs; exact Hs).
  exact (conj H1 (conj H2 (conj H3
           (filtered_df_monotone create_sample_data _ _ H1 H2 H3)))).
Defined.

Lemma kpi_block_figures_finite_witness :
  kpi_block (Pandas.of_rows scenario_rows)
  = Some (compute_kpis (Pandas.of_rows scenario_rows))
  /\ Float.is_finite
       (conversion_rate (compute_kpis (Pandas.of_rows scenario_rows))) = true
  /\ Float.is_finite
       (avg_daily_visitors (compute_kpis (Pandas.of_rows scenario_rows))) = true
  /\ Float.is_finite
       (avg_daily_orders (compute_kpis (Pandas.of_rows scenario_rows))) = true.
Proof.
  assert (H : kpi_block (Pandas.of_rows scenario_rows)
              = Some (compute_kpis (Pandas.of_rows scenario_rows)))
    by reflexivity.
  destruct (kpi_block_figures_finite (Pandas.of_rows scenario_rows))
    as [_ [_ Hk]].
  exact (conj H (Hk _ H)).
Defined.

Lemma segment_visitors_sum_exact_witness :
  Forall (fun r => 0 <= Visitors r) (rows_of (Pandas.of_rows scenario_rows))
  /\ zsum (map Visitors (rows_of (Pandas.of_rows scenario_rows)))
     < Int64.half_modulus
  /\ zsum (map s_Visitors (segment_summary (Pandas.of_rows scenario_rows)))
     = zsum (map Visitors (rows_of (Pandas.of_rows scenario_rows))).
Proof.
  assert (H1 : Forall (fun r => 0 <= Visitors r)
                      (rows_of (Pandas.of_rows scenario_rows)))
    by (repeat constructor; simpl; lia).
  assert (H2 : zsum (map Visitors (rows_of (Pandas.of_rows scenario_rows)))
               < Int64.half_modulus)
    by (vm_compute; reflexivity).
  exact (conj H1 (conj H2 (proj1 (segment_visitors_sum_exact _ H1 H2)))).
Defined.
